(** * slogan: a leveled, colorized console logger (Go)

    Shallow embedding of [slogan.go]: the package-level variables become one
    record [State], every function becomes a state transformer, and the three
    ways a Go call can end (normal return, [os.Exit], run-time panic) are the
    three constructors of [outcome].  The Go standard library and the color
    package are external: they are the fields of the class [Externals].

    Embedded: the configuration setters and getters, [SetFlags],
    [SetPrefix], [SetOutput], the severity functions, [Trace], [TraceCall],
    [Runtime], [AllDone], [ElapsedTime], [Log], [logfmt], [colorize] and
    [setcolor].  Left out: the [Show] functions, which print to standard
    output, and [getWidth], a system call. *)

From Stdlib Require Import ZArith Lia Ascii.
From Equations Require Import Equations.
From stdpp Require Import base strings list vector gmap fin_maps pretty.

Local Open Scope string_scope.
Local Open Scope list_scope.
Local Open Scope Z_scope.

(** ** Go's [int] *)

(** [int] is 64 bits wide on the platforms the package builds for; additions
    wrap around. *)
Definition int_wrap (z : Z) : Z := (z + 2 ^ 63) `mod` 2 ^ 64 - 2 ^ 63.
Definition int_add (a b : Z) : Z := int_wrap (a + b).
Definition int_sub (a b : Z) : Z := int_wrap (a - b).

(** ** Constants for log levels *)

Definition Lsilent : Z := 0.
Definition Lemergency : Z := 1.
Definition Lalert : Z := 2.
Definition Lcritical : Z := 3.
Definition Lerror : Z := 4.
Definition Lwarning : Z := 5.
Definition Lnotice : Z := 6.
Definition Linfo : Z := 7.
Definition Ldebug : Z := 8.
Definition Ltrace : Z := 9.

(** ** External collaborators *)

(** An [io.Writer], compared by identity: [os.Stderr] and [os.Stdout] are two
    distinct [*os.File] values, any other writer is told apart by a number. *)
Inductive Writer : Type :=
| os_Stderr
| os_Stdout
| other_writer (id : nat).

#[global] Instance Writer_eq_dec : EqDecision Writer.
Proof. solve_decision. Defined.

(** A stack frame as [runtime.Caller] reports it: file and line. *)
Definition frame : Type := string * Z.

(** Arguments handed to [fmt.Sprintf]: strings, ints, and any other Go value
    (the [interface{}] argument of [Trace]). *)
Inductive value (Any : Type) : Type :=
| VString (s : string)
| VInt (n : Z)
| VAny (a : Any).
Arguments VString {Any} s.
Arguments VInt {Any} n.
Arguments VAny {Any} a.

Class Externals : Type := {
  (** Go values other than strings and ints *)
  Any : Type;
  (** [fmt.Sprintf(format, a...)] *)
  fmt_Sprintf : string → list (value Any) → string;
  (** [runtime.Caller(skip)] on a given call stack (innermost frame first):
      the file and line of frame [skip] *)
  runtime_Caller : list frame → Z → string * Z;
  (** [path.Base] *)
  path_Base : string → string;
  (** the functions of package [color], by name: [color_fn "Red" s] is
      [color.Red(s)] *)
  color_fn : string → string → string;
  (** path of [slogan.go] as the compiler recorded it *)
  slogan_go : string;
}.

(** ** Package state *)

(** The legacy logger ([log.Logger]): destination, prefix, flags. *)
Record Logger : Type := mkLogger {
  logger_out : Writer;
  logger_prefix : string;
  logger_flags : Z;
}.

#[global] Instance Logger_eq_dec : EqDecision Logger.
Proof. solve_decision. Defined.

(** The package-level variables.  [written] is not a Go variable: it records,
    oldest first, every [logger.Println(Str)] with the logger as it was
    configured at that moment.  The three map-typed tables are modelled by
    their contents: no function of the package updates a map in place. *)
Record State : Type := mkState {
  logger : Logger;
  isTerminal : bool;
  tags : vec string 10;
  formats : gmap string string;
  colors : gmap Z string;
  parts : gmap string bool;
  offset : Z;
  Verbosity : Z;
  ExitOnError : bool;
  WarningAsError : bool;
  TraceCaller : bool;
  CallerBase : bool;
  Colorize : bool;
  ForceColorize : bool;
  NoEmpty : bool;
  written : list (Logger * string);
}.

(** Assignments to one variable. *)
Definition set_logger (v : Logger) (st : State) : State := {|
  logger := v; isTerminal := isTerminal st; tags := tags st;
  formats := formats st; colors := colors st; parts := parts st;
  offset := offset st; Verbosity := Verbosity st;
  ExitOnError := ExitOnError st; WarningAsError := WarningAsError st;
  TraceCaller := TraceCaller st; CallerBase := CallerBase st;
  Colorize := Colorize st; ForceColorize := ForceColorize st;
  NoEmpty := NoEmpty st; written := written st
|}.
Definition set_isTerminal (v : bool) (st : State) : State := {|
  logger := logger st; isTerminal := v; tags := tags st;
  formats := formats st; colors := colors st; parts := parts st;
  offset := offset st; Verbosity := Verbosity st;
  ExitOnError := ExitOnError st; WarningAsError := WarningAsError st;
  TraceCaller := TraceCaller st; CallerBase := CallerBase st;
  Colorize := Colorize st; ForceColorize := ForceColorize st;
  NoEmpty := NoEmpty st; written := written st
|}.
Definition set_tags (v : vec string 10) (st : State) : State := {|
  logger := logger st; isTerminal := isTerminal st; tags := v;
  formats := formats st; colors := colors st; parts := parts st;
  offset := offset st; Verbosity := Verbosity st;
  ExitOnError := ExitOnError st; WarningAsError := WarningAsError st;
  TraceCaller := TraceCaller st; CallerBase := CallerBase st;
  Colorize := Colorize st; ForceColorize := ForceColorize st;
  NoEmpty := NoEmpty st; written := written st
|}.
Definition set_formats (v : gmap string string) (st : State) : State := {|
  logger := logger st; isTerminal := isTerminal st; tags := tags st;
  formats := v; colors := colors st; parts := parts st; offset := offset st;
  Verbosity := Verbosity st; ExitOnError := ExitOnError st;
  WarningAsError := WarningAsError st; TraceCaller := TraceCaller st;
  CallerBase := CallerBase st; Colorize := Colorize st;
  ForceColorize := ForceColorize st; NoEmpty := NoEmpty st;
  written := written st
|}.
Definition set_colors (v : gmap Z string) (st : State) : State := {|
  logger := logger st; isTerminal := isTerminal st; tags := tags st;
  formats := formats st; colors := v; parts := parts st; offset := offset st;
  Verbosity := Verbosity st; ExitOnError := ExitOnError st;
  WarningAsError := WarningAsError st; TraceCaller := TraceCaller st;
  CallerBase := CallerBase st; Colorize := Colorize st;
  ForceColorize := ForceColorize st; NoEmpty := NoEmpty st;
  written := written st
|}.
Definition set_parts (v : gmap string bool) (st : State) : State := {|
  logger := logger st; isTerminal := isTerminal st; tags := tags st;
  formats := formats st; colors := colors st; parts := v;
  offset := offset st; Verbosity := Verbosity st;
  ExitOnError := ExitOnError st; WarningAsError := WarningAsError st;
  TraceCaller := TraceCaller st; CallerBase := CallerBase st;
  Colorize := Colorize st; ForceColorize := ForceColorize st;
  NoEmpty := NoEmpty st; written := written st
|}.
Definition set_offset (v : Z) (st : State) : State := {|
  logger := logger st; isTerminal := isTerminal st; tags := tags st;
  formats := formats st; colors := colors st; parts := parts st; offset := v;
  Verbosity := Verbosity st; ExitOnError := ExitOnError st;
  WarningAsError := WarningAsError st; TraceCaller := TraceCaller st;
  CallerBase := CallerBase st; Colorize := Colorize st;
  ForceColorize := ForceColorize st; NoEmpty := NoEmpty st;
  written := written st
|}.
Definition set_Verbosity (v : Z) (st : State) : State := {|
  logger := logger st; isTerminal := isTerminal st; tags := tags st;
  formats := formats st; colors := colors st; parts := parts st;
  offset := offset st; Verbosity := v; ExitOnError := ExitOnError st;
  WarningAsError := WarningAsError st; TraceCaller := TraceCaller st;
  CallerBase := CallerBase st; Colorize := Colorize st;
  ForceColorize := ForceColorize st; NoEmpty := NoEmpty st;
  written := written st
|}.
Definition set_ExitOnError (v : bool) (st : State) : State := {|
  logger := logger st; isTerminal := isTerminal st; tags := tags st;
  formats := formats st; colors := colors st; parts := parts st;
  offset := offset st; Verbosity := Verbosity st; ExitOnError := v;
  WarningAsError := WarningAsError st; TraceCaller := TraceCaller st;
  CallerBase := CallerBase st; Colorize := Colorize st;
  ForceColorize := ForceColorize st; NoEmpty := NoEmpty st;
  written := written st
|}.
Definition set_WarningAsError (v : bool) (st : State) : State := {|
  logger := logger st; isTerminal := isTerminal st; tags := tags st;
  formats := formats st; colors := colors st; parts := parts st;
  offset := offset st; Verbosity := Verbosity st;
  ExitOnError := ExitOnError st; WarningAsError := v;
  TraceCaller := TraceCaller st; CallerBase := CallerBase st;
  Colorize := Colorize st; ForceColorize := ForceColorize st;
  NoEmpty := NoEmpty st; written := written st
|}.
Definition set_TraceCaller (v : bool) (st : State) : State := {|
  logger := logger st; isTerminal := isTerminal st; tags := tags st;
  formats := formats st; colors := colors st; parts := parts st;
  offset := offset st; Verbosity := Verbosity st;
  ExitOnError := ExitOnError st; WarningAsError := WarningAsError st;
  TraceCaller := v; CallerBase := CallerBase st; Colorize := Colorize st;
  ForceColorize := ForceColorize st; NoEmpty := NoEmpty st;
  written := written st
|}.
Definition set_CallerBase (v : bool) (st : State) : State := {|
  logger := logger st; isTerminal := isTerminal st; tags := tags st;
  formats := formats st; colors := colors st; parts := parts st;
  offset := offset st; Verbosity := Verbosity st;
  ExitOnError := ExitOnError st; WarningAsError := WarningAsError st;
  TraceCaller := TraceCaller st; CallerBase := v; Colorize := Colorize st;
  ForceColorize := ForceColorize st; NoEmpty := NoEmpty st;
  written := written st
|}.
Definition set_Colorize (v : bool) (st : State) : State := {|
  logger := logger st; isTerminal := isTerminal st; tags := tags st;
  formats := formats st; colors := colors st; parts := parts st;
  offset := offset st; Verbosity := Verbosity st;
  ExitOnError := ExitOnError st; WarningAsError := WarningAsError st;
  TraceCaller := TraceCaller st; CallerBase := CallerBase st; Colorize := v;
  ForceColorize := ForceColorize st; NoEmpty := NoEmpty st;
  written := written st
|}.
Definition set_ForceColorize (v : bool) (st : State) : State := {|
  logger := logger st; isTerminal := isTerminal st; tags := tags st;
  formats := formats st; colors := colors st; parts := parts st;
  offset := offset st; Verbosity := Verbosity st;
  ExitOnError := ExitOnError st; WarningAsError := WarningAsError st;
  TraceCaller := TraceCaller st; CallerBase := CallerBase st;
  Colorize := Colorize st; ForceColorize := v; NoEmpty := NoEmpty st;
  written := written st
|}.
Definition set_NoEmpty (v : bool) (st : State) : State := {|
  logger := logger st; isTerminal := isTerminal st; tags := tags st;
  formats := formats st; colors := colors st; parts := parts st;
  offset := offset st; Verbosity := Verbosity st;
  ExitOnError := ExitOnError st; WarningAsError := WarningAsError st;
  TraceCaller := TraceCaller st; CallerBase := CallerBase st;
  Colorize := Colorize st; ForceColorize := ForceColorize st; NoEmpty := v;
  written := written st
|}.
Definition set_written (v : list (Logger * string)) (st : State) : State := {|
  logger := logger st; isTerminal := isTerminal st; tags := tags st;
  formats := formats st; colors := colors st; parts := parts st;
  offset := offset st; Verbosity := Verbosity st;
  ExitOnError := ExitOnError st; WarningAsError := WarningAsError st;
  TraceCaller := TraceCaller st; CallerBase := CallerBase st;
  Colorize := Colorize st; ForceColorize := ForceColorize st;
  NoEmpty := NoEmpty st; written := v
|}.

(** ** Control flow of a Go call *)

(** A call returns a result, or ends the process with [os.Exit(code)], or
    panics; each time the package state is the one reached so far. *)
Inductive outcome (A : Type) : Type :=
| Returned (a : A) (st : State)
| Exited (code : Z) (st : State)
| Panicked (st : State).
Arguments Returned {A} a st.
Arguments Exited {A} code st.
Arguments Panicked {A} st.

Definition final {A} (o : outcome A) : State :=
  match o with
  | Returned _ st | Exited _ st | Panicked st => st
  end.

Definition Go (A : Type) : Type := State → outcome A.

Definition ret {A} (a : A) : Go A := fun st => Returned a st.

Definition bind {A B} (m : Go A) (k : A → Go B) : Go B := fun st =>
  match m st with
  | Returned a st' => k a st'
  | Exited code st' => Exited code st'
  | Panicked st' => Panicked st'
  end.

(** A statement that only assigns package variables. *)
Definition assign (f : State → State) : Go unit := fun st => Returned tt (f st).

(** Read something off the package variables. *)
Definition read {A} (f : State → A) : Go A := fun st => Returned (f st) st.

(** [os.Exit(code)]: the process ends at once, deferred calls do not run. *)
Definition os_Exit {A} (code : Z) : Go A := fun st => Exited code st.

(** An index out of range. *)
Definition panic {A} : Go A := fun st => Panicked st.

(** [defer d; body]: [d] runs when the function returns and while a panic
    unwinds, not when the process exits. *)
Definition defer {A} (d : State → State) (body : Go A) : Go A := fun st =>
  match body st with
  | Returned a st' => Returned a (d st')
  | Exited code st' => Exited code st'
  | Panicked st' => Panicked (d st')
  end.

Declare Scope go_scope.
Delimit Scope go_scope with go.
Notation "'let*' x := m 'in' k" := (bind m (fun x => k))
  (at level 10, x name, m at level 100, k at level 200) : go_scope.
Notation "m ;; k" := (bind m (fun _ => k))
  (at level 100, k at level 200, right associativity) : go_scope.

Local Open Scope go_scope.

(** ** Default values of the package variables *)

Definition TAB : string := String "009"%char "".
Definition NL : string := String "010"%char "".

(** tags per log level; index 0 is reserved for the log prefix *)
Definition default_tags : vec string 10 :=
  [# "";          (* Prefix *)
     "emergency"; (* 1 *)
     "alert    "; (* 2 *)
     "critical "; (* 3 *)
     "error    "; (* 4 *)
     "warning  "; (* 5 *)
     "notice   "; (* 6 *)
     "info     "; (* 7 *)
     "debug    "; (* 8 *)
     "trace    "  (* 9 *) ].

(** log formats *)
Definition default_formats : gmap string string :=
  list_to_map [
    ("fatal", "Immediate exit with code %d");
    ("trace", "%[1]T" +:+ NL +:+ " %%v: %[1]v" +:+ NL +:+ NL +:+ "%%v+: %+[1]v"
                +:+ NL +:+ NL +:+ "%%#v: %#[1]v");
    ("empty", "%#v");
    ("runtime", "OS:%s ARCH:%s CPU:%d COMPILER:%s ROOT:%s");
    ("default", "   %[1]s %[2]s");
    ("caller", "   %[1]s %[3]s" +:+ TAB +:+ " %[2]s");
    ("where", "%s:%d");
    ("alldone", "All done in : %s");
    ("elapsed", "Elapsed time : %s") ].

(** colors; index 0 is for the log prefix, index 10 for the caller *)
Definition default_colors : gmap Z string :=
  list_to_map [
    (10, "Underline");
    (9, "DarkGray");
    (8, "DarkGray");
    (7, "Purple");
    (6, "Green");
    (5, "Yellow");
    (4, "LightRed");
    (3, "Red");
    (2, "BLightRed");
    (1, "BRed");
    (0, "") ].

(** which parts of a log line are colorized when [Colorize] is true *)
Definition default_parts : gmap string bool :=
  list_to_map [
    ("caller", true);
    ("tag", true);
    ("log", false);
    ("prefix", false) ].

(** The state after package initialisation: the logger writes to standard
    error with no prefix and no flags; [stderr_is_terminal] is what
    [terminal.IsTerminal(int(os.Stderr.Fd()))] answered. *)
Definition initial (stderr_is_terminal : bool) : State := {|
  logger := mkLogger os_Stderr "" 0;
  isTerminal := stderr_is_terminal;
  tags := default_tags;
  formats := default_formats;
  colors := default_colors;
  parts := default_parts;
  offset := 0;
  Verbosity := Lwarning;
  ExitOnError := false;
  WarningAsError := false;
  TraceCaller := false;
  CallerBase := true;
  Colorize := true;
  ForceColorize := false;
  NoEmpty := false;
  written := [];
|}.

(** ** Reading the tables the way Go does *)

(** [m[k]] on a Go map: the zero value when the key is absent. *)
Definition format_of (st : State) (name : string) : string :=
  default "" (formats st !! name).
Definition color_of (st : State) (level : Z) : string :=
  default "" (colors st !! level).
Definition part_of (st : State) (what : string) : bool :=
  default false (parts st !! what).

(** [tags[level]] on the array: [None] is the index-out-of-range panic. *)
Definition tag_of (st : State) (level : Z) : option string :=
  if decide (0 ≤ level) then vec_to_list (tags st) !! Z.to_nat level else None.

(** ** Exported functions for configuration *)

Definition SetVerbosity (level : Z) : Go unit := assign (set_Verbosity level).
Definition SetExitOnError (mode : bool) : Go unit := assign (set_ExitOnError mode).
Definition SetWarningAsError (mode : bool) : Go unit := assign (set_WarningAsError mode).
Definition SetTraceCaller (mode : bool) : Go unit := assign (set_TraceCaller mode).
Definition SetColor (mode : bool) : Go unit := assign (set_Colorize mode).
Definition SetForceColor (mode : bool) : Go unit := assign (set_ForceColorize mode).
Definition SetNoEmpty (mode : bool) : Go unit := assign (set_NoEmpty mode).

Definition GetColors : Go (gmap Z string) := read colors.

Definition SetColors (n : gmap Z string) : Go (gmap Z string) :=
  let* old := read colors in
  assign (set_colors n) ;;
  ret old.

(** [logger.SetPrefix] and [logger.SetOutput] of package [log] *)
Definition logger_SetPrefix (prefix : string) (st : State) : State :=
  set_logger (mkLogger (logger_out (logger st)) prefix (logger_flags (logger st))) st.
Definition logger_SetOutput (w : Writer) (st : State) : State :=
  set_logger (mkLogger w (logger_prefix (logger st)) (logger_flags (logger st))) st.

(** [tags[0] = prefix] *)
Definition store_prefix (prefix : string) (st : State) : State :=
  set_tags (vinsert 0%fin prefix (tags st)) st.

Definition SetPrefix (prefix : string) : Go string :=
  defer (logger_SetPrefix prefix) (
    let* old := read (fun st => tags st !!! 0%fin) in
    assign (store_prefix prefix) ;;
    ret old).

Definition SetOutput (w : Writer) : Go unit :=
  (if bool_decide (w ≠ os_Stderr) || bool_decide (w ≠ os_Stdout)
   then assign (set_isTerminal false)
   else ret tt) ;;
  assign (logger_SetOutput w).

Definition GetTags : Go (vec string 10) := read tags.

Definition SetTags (n : vec string 10) : Go (vec string 10) :=
  let* old := read tags in
  assign (set_tags n) ;;
  ret old.

Definition GetFormats : Go (gmap string string) := read formats.

Definition SetFormats (n : gmap string string) : Go (gmap string string) :=
  let* old := read formats in
  assign (set_formats n) ;;
  ret old.

Definition GetParts : Go (gmap string bool) := read parts.

Definition SetParts (n : gmap string bool) : Go (gmap string bool) :=
  let* old := read parts in
  assign (set_parts n) ;;
  ret old.

Definition IsTerminal : Go bool := read isTerminal.

(** Stack depth offset *)
Definition incr_offset : Go unit :=
  assign (fun st => set_offset (int_add (offset st) 1) st).
Definition decr_offset (st : State) : State :=
  set_offset (int_sub (offset st) 1) st.

Section slogan.
Context `{!Externals}.

(** ** Log colorization *)

(** The cases of the switch in [setcolor], in source order: plain, bold,
    background, special. *)
Definition color_names : list string := [
  "Black"; "Red"; "Green"; "Yellow"; "Blue"; "Purple"; "Cyan"; "LightGray";
  "DarkGray"; "LightRed"; "LightGreen"; "LightYellow"; "LightBlue";
  "LightPurple"; "LightCyan"; "White";
  "BBlack"; "BRed"; "BGreen"; "BYellow"; "BBlue"; "BPurple"; "BCyan";
  "BLightGray"; "BDarkGray"; "BLightRed"; "BLightGreen"; "BLightYellow";
  "BLightBlue"; "BLightPurple"; "BLightCyan"; "BWhite";
  "GBlack"; "GRed"; "GGreen"; "GYellow"; "GBlue"; "GPurple"; "GCyan";
  "GLightGray"; "GDarkGray"; "GLightRed"; "GLightGreen"; "GLightYellow";
  "GLightBlue"; "GLightPurple"; "GLightCyan"; "GWhite";
  "Bold"; "Dim"; "Underline"; "Invert"; "Hide"; "Blink" ].

(** Set color from color map: [case name: Ret = color.name(str)] for each
    name above, [default: Ret = str]. *)
Definition setcolor (what : string) (level : Z) (str : string) (st : State) : string :=
  let name := color_of st level in
  if bool_decide (name ∈ color_names) then color_fn name str else str.

Definition colorize (what : string) (level : Z) (str : string) (st : State) : string :=
  if bool_decide (isTerminal st = false) && bool_decide (ForceColorize st = false)
  then str
  else if bool_decide (Colorize st = true) && bool_decide (part_of st what = true)
  then setcolor what level str st
  else str.

(** ** Log formatter *)

(** [stack] is the call stack at the call of [logfmt], innermost first: its
    head is the line of [Log] that calls [logfmt].  [None] is the panic of
    [tags[level]]. *)
Definition logfmt (stack : list frame) (level : Z) (log : string) (st : State)
  : option string :=
  let Fmt := format_of st "default" in
  Tag ← tag_of st level;
  let Caller := "" in
  let '(fn_, line) :=
    runtime_Caller ((slogan_go, 431) :: stack) (int_add 3 (offset st)) in
  if bool_decide (TraceCaller st = true) then
    let fn := if bool_decide (CallerBase st = true) then path_Base fn_ else fn_ in
    let Caller :=
      colorize "caller" 10
        (fmt_Sprintf (format_of st "where") [VString fn; VInt line]) st in
    Some (fmt_Sprintf (format_of st "caller")
            [VString (colorize "tag" level Tag st);
             VString (colorize "log" level log st);
             VString Caller])
  else
    Some (fmt_Sprintf Fmt
            [VString (colorize "tag" level Tag st);
             VString (colorize "log" level log st);
             VString Caller]).

(** ** Main log function *)

(** [logger.Println(Str)] *)
Definition logger_Println (Str : string) : Go unit :=
  assign (fun st => set_written (written st ++ [(logger st, Str)]) st).

(** The first statement of [Log]: the verbosity gate and the emission. *)
Definition Log_emit (stack : list frame) (level : Z) (log : string) : Go unit :=
  fun st =>
  if bool_decide (Verbosity st >= level) then
    let allow := true in
    let allow :=
      if bool_decide (NoEmpty st = true) && bool_decide (String.length log = 0%nat)
      then false else allow in
    if allow then
      match logfmt ((slogan_go, 405) :: stack) level log st with
      | Some Str => logger_Println Str st
      | None => panic st
      end
    else ret tt st
  else ret tt st.

(** The condition of the second statement of [Log]. *)
Definition Log_fatal (level : Z) (st : State) : bool :=
  (bool_decide (level < Lwarning)
   || (bool_decide (level = Lwarning) && bool_decide (WarningAsError st = true)))
  && bool_decide (ExitOnError st = true).

(** [Log] calls itself through [Debug], only from the branch that exits, and
    [Ldebug] never takes that branch: the recursion is one call deep. *)
Definition Log_depth (level : Z) : nat :=
  if bool_decide (level ≤ Lwarning) then 1%nat else 0%nat.

Equations? Log (stack : list frame) (level : Z) (log : string) (st : State)
  : outcome unit by wf (Log_depth level) lt :=
Log stack level log st :=
  (Log_emit stack level log ;;
   fun st1 =>
   match bool_decide (Log_fatal level st1 = true) as b
         return bool_decide (Log_fatal level st1 = true) = b → outcome unit with
   | true => fun Hfatal =>
       (incr_offset ;;
        defer decr_offset (
          incr_offset ;;
          defer decr_offset (
            (* Debug(fmt.Sprintf(formats["fatal"], level)) *)
            (fun st2 =>
               Log ((slogan_go, 355) :: (slogan_go, 414) :: stack) Ldebug
                 (fmt_Sprintf (format_of st2 "fatal") [VInt level]) st2) ;;
            os_Exit level))) st1
   | false => fun _ => ret tt st1
   end eq_refl) st.
Proof.
  apply bool_decide_eq_true_1 in Hfatal.
  unfold Log_fatal, Log_depth, Lwarning, Ldebug in *.
  rewrite (bool_decide_eq_true_2 (level ≤ 5)).
  - rewrite bool_decide_eq_false_2; lia.
  - repeat case_bool_decide; simpl in Hfatal; try discriminate; lia.
Qed.

(** ** Exported functions for logging *)

(** silent 0 | emergency 1 | alert 2 | critical 3 | error 4 | warning 5 |
    notice 6 | info 7 | debug 8 | trace 9.  [stack] is the call stack at the
    call of the function; each function adds the line of its own call. *)

(** Silent a log while keeping it *)
Definition Silent (stack : list frame) (log : string) : Go unit :=
  Log ((slogan_go, 315) :: stack) Lsilent log.

Definition Emergency (stack : list frame) (log : string) : Go unit :=
  Log ((slogan_go, 320) :: stack) Lemergency log.

Definition Alert (stack : list frame) (log : string) : Go unit :=
  Log ((slogan_go, 325) :: stack) Lalert log.

Definition Critical (stack : list frame) (log : string) : Go unit :=
  Log ((slogan_go, 330) :: stack) Lcritical log.

Definition Error (stack : list frame) (log : string) : Go unit :=
  Log ((slogan_go, 335) :: stack) Lerror log.

Definition Warning (stack : list frame) (log : string) : Go unit :=
  Log ((slogan_go, 340) :: stack) Lwarning log.

Definition Notice (stack : list frame) (log : string) : Go unit :=
  Log ((slogan_go, 345) :: stack) Lnotice log.

Definition Info (stack : list frame) (log : string) : Go unit :=
  Log ((slogan_go, 350) :: stack) Linfo log.

Definition Debug (stack : list frame) (log : string) : Go unit :=
  Log ((slogan_go, 355) :: stack) Ldebug log.

(** Trace log; the [empty] format is used for an empty thing to be traced *)
Definition Trace (stack : list frame) (trace : value Any) : Go unit :=
  if bool_decide (fmt_Sprintf "%v" [trace] = "[]") then
    let* empty := read (fun st => format_of st "empty") in
    Log ((slogan_go, 362) :: stack) Ltrace (fmt_Sprintf empty [trace])
  else
    let* fmt := read (fun st => format_of st "trace") in
    Log ((slogan_go, 364) :: stack) Ltrace (fmt_Sprintf fmt [trace]).

(** Trace log with caller punctually *)
Definition TraceCall (stack : list frame) (trace : value Any) : Go unit :=
  assign (set_TraceCaller true) ;;
  defer (fun st => final (SetTraceCaller false st)) (
    Trace ((slogan_go, 374) :: stack) trace).

(** The program of the README, without its [Runtime] and [Trace] calls;
    the line numbers are those of the listing. *)
Definition README_main : Go unit :=
  SetExitOnError true ;;
  SetVerbosity 9 ;;
  Debug [("main.go", 16)] "A debug message" ;;
  Info [("main.go", 17)] "An informative message" ;;
  Notice [("main.go", 18)] "A notification" ;;
  Warning [("main.go", 19)] "A warning" ;;
  Error [("main.go", 20)] "An Error" ;;
  Critical [("main.go", 21)] "A critical message" ;;
  Alert [("main.go", 22)] "An alert" ;;
  Emergency [("main.go", 23)] "An Emergency".

(** ** How a call ended, and what the exit path writes *)

Inductive status : Type :=
| returns
| exits (code : Z)
| panics.

Definition status_of {A} (o : outcome A) : status :=
  match o with
  | Returned _ _ => returns
  | Exited code _ => exits code
  | Panicked _ => panics
  end.

(** The state in which the exit path of [Log] calls [Debug]: the offset was
    incremented twice. *)
Definition at_exit (st : State) : State :=
  set_offset (int_add (int_add (offset st) 1) 1) st.

(** The lines the exit path of [Log stack level _] hands to the logger when
    it is taken in state [st]: the [fatal] message, logged by [Debug], so
    gated by the verbosity (and by [NoEmpty]) like any debug message. *)
Definition fatal_lines (stack : list frame) (level : Z) (st : State)
  : list (Logger * string) :=
  let msg := fmt_Sprintf (format_of st "fatal") [VInt level] in
  if bool_decide (Verbosity st >= Ldebug)
     && negb (bool_decide (NoEmpty st = true)
              && bool_decide (String.length msg = 0%nat))
  then
    match logfmt ((slogan_go, 405) :: (slogan_go, 355) :: (slogan_go, 414) :: stack)
                 Ldebug msg (at_exit st) with
    | Some Str => [(logger st, Str)]
    | None => []
    end
  else [].

End slogan.

(** ** A concrete environment for running the model *)

(** Stand-ins for the Go library, used only to run examples: [demo_Sprintf]
    understands the verbs of the default [default], [caller], [where] and
    [fatal] templates ([%s], [%d], [%v], [%[n]s], [%%]). *)
Definition demo_show (v : option (value unit)) : string :=
  match v with
  | Some (VString s) => s
  | Some (VInt n) => pretty n
  | Some (VAny _) => "[]"
  | None => "%!(MISSING)"
  end.

Definition demo_digit (c : ascii) : nat := nat_of_ascii c - 48.

Fixpoint demo_Sprintf_from (next : nat) (f : string) (a : list (value unit))
  : string :=
  match f with
  | String c1 ((String c2 rest2) as rest1) =>
      if negb (Ascii.eqb c1 "%") then String c1 (demo_Sprintf_from next rest1 a)
      else if Ascii.eqb c2 "%" then String "%" (demo_Sprintf_from next rest2 a)
      else
        match rest2 with
        | String d (String c4 (String _ rest5)) =>
            if Ascii.eqb c2 "[" && Ascii.eqb c4 "]"
            then demo_show (a !! (demo_digit d - 1)%nat)
                   +:+ demo_Sprintf_from (demo_digit d) rest5 a
            else demo_show (a !! next) +:+ demo_Sprintf_from (S next) rest2 a
        | _ => demo_show (a !! next) +:+ demo_Sprintf_from (S next) rest2 a
        end
  | _ => f
  end.

Fixpoint demo_Base_from (acc s : string) : string :=
  match s with
  | String c rest =>
      if Ascii.eqb c "/" then demo_Base_from "" rest
      else demo_Base_from (acc +:+ String c "") rest
  | EmptyString => acc
  end.

Definition demo : Externals := {|
  Any := unit;
  fmt_Sprintf := demo_Sprintf_from 0;
  runtime_Caller := fun stack skip =>
    if decide (0 ≤ skip) then default ("", 0) (stack !! Z.to_nat skip) else ("", 0);
  path_Base := demo_Base_from "";
  color_fn := fun name str => "<" +:+ name +:+ ">" +:+ str +:+ "</>";
  slogan_go := "slogan.go";
|}.

(** ** The rest of the package: logger flags, run-time report, timing *)

(** Constants for legacy log package, with the values package [log] gives
    them ([1 << iota]). *)
Definition Ldate : Z := 1.
Definition Ltime : Z := 2.
Definition Lmicroseconds : Z := 4.
Definition Llongfile : Z := 8.
Definition Lshortfile : Z := 16.
Definition LUTC : Z := 32.
Definition LstdFlags : Z := Z.lor Ldate Ltime.

(** The values a Go [int] can hold. *)
Definition is_int (z : Z) : Prop := - 2 ^ 63 ≤ z < 2 ^ 63.

(** [logger.SetFlags] of package [log] *)
Definition logger_SetFlags (flag : Z) (st : State) : State :=
  set_logger (mkLogger (logger_out (logger st)) (logger_prefix (logger st)) flag) st.

(** [SetFlags] peels [Lshortfile], then [Llongfile], off the flags, one per
    call: bits 3 and 4 of the argument count the calls left. *)
Definition SetFlags_depth (flag : Z) : nat := Z.to_nat ((flag `div` 8) `mod` 4).

Equations? SetFlags (flag : Z) (st : State) : outcome unit
  by wf (SetFlags_depth flag) lt :=
SetFlags flag st :=
  match decide (Z.land flag Lshortfile = Lshortfile) with
  | left _ =>
      SetFlags (int_sub flag Lshortfile)
        (set_CallerBase true (set_TraceCaller true st))
  | right _ =>
      match decide (Z.land flag Llongfile = Llongfile) with
      | left _ =>
          SetFlags (int_sub flag Llongfile)
            (set_CallerBase false (set_TraceCaller true st))
      | right _ => assign (logger_SetFlags flag) st
      end
  end.
Proof.
  all: assert (Hbit : ∀ n, 0 ≤ n → Z.land flag (2 ^ n) = 2 ^ n ↔ Z.testbit flag n = true).
  1, 3: intros k Hk; split; intros Hb;
    [ apply (f_equal (fun z => Z.testbit z k)) in Hb;
      rewrite Z.land_spec, Z.pow2_bits_eqb, Z.eqb_refl, andb_true_r in Hb; done
    | apply Z.bits_inj'; intros i Hi;
      rewrite Z.land_spec, Z.pow2_bits_eqb by done;
      destruct (Z.eqb_spec k i) as [<-|]; [by rewrite Hb|by rewrite andb_false_r] ].
  - apply (Hbit 4), Z.testbit_true in e; [|lia..].
    unfold SetFlags_depth, int_sub, int_wrap, Lshortfile.
    change (2 ^ 4) with 16 in e. Z.div_mod_to_equations. lia.
  - assert (Hs : Z.testbit flag 4 = false).
    { destruct (Z.testbit flag 4) eqn:Hs; [|done]. by apply (Hbit 4) in Hs. }
    apply Z.testbit_false in Hs; [|lia].
    apply (Hbit 3), Z.testbit_true in e; [|lia..].
    unfold SetFlags_depth, int_sub, int_wrap, Llongfile.
    change (2 ^ 4) with 16 in Hs. change (2 ^ 3) with 8 in e.
    Z.div_mod_to_equations. lia.
Qed.

(** What [Runtime] and the timing helpers need beside [Externals]: the
    constants and functions of package [runtime] that [Runtime] reports, and
    a [time.Duration] (nanoseconds) seen as a Go value handed to
    [fmt.Sprintf]. *)
Class Platform (E : Externals) : Type := {
  runtime_GOOS : string;
  runtime_GOARCH : string;
  runtime_NumCPU : Z;
  runtime_Compiler : string;
  runtime_GOROOT : string;
  Duration_value : Z → Any;
}.

(** The two time references of the package, as readings of the clock in
    nanoseconds. *)
Record Clocks : Type := mkClocks {
  start : Z;
  last : Z;
}.

(** [time.Since(t)] when the clock reads [now]: the difference, kept within
    the range of a [time.Duration]. *)
Definition time_Since (now t : Z) : Z :=
  Z.max (- 2 ^ 63) (Z.min (2 ^ 63 - 1) (now - t)).

(** [resetStart] and [resetLast] when the clock reads [now] *)
Definition resetStart (now : Z) (ck : Clocks) : Clocks := mkClocks now (last ck).
Definition resetLast (now : Z) (ck : Clocks) : Clocks := mkClocks (start ck) now.

Section helpers.
Context `{!Externals} `{!Platform _}.

(** Log runtime infos as debug *)
Definition Runtime (stack : list frame) : Go unit :=
  incr_offset ;;
  defer decr_offset (
    let* fmt := read (fun st => format_of st "runtime") in
    Debug ((slogan_go, 383) :: stack)
      (fmt_Sprintf fmt [VString runtime_GOOS; VString runtime_GOARCH;
                        VInt runtime_NumCPU; VString runtime_Compiler;
                        VString runtime_GOROOT])).

(** Notice the time elapsed since start and reset the start time reference.
    [now] is the clock when [time.Since] reads it, [later] when the deferred
    [resetStart] does; the result is the time references after the call. *)
Definition AllDone (now later : Z) (stack : list frame) (ck : Clocks) : Go Clocks :=
  let elapsed := time_Since now (start ck) in
  let* _ :=
    (incr_offset ;;
     defer decr_offset (
       let* fmt := read (fun st => format_of st "alldone") in
       Notice ((slogan_go, 225) :: stack)
         (fmt_Sprintf fmt [VAny (Duration_value elapsed)]))) in
  ret (resetStart later ck).

(** Notice the time elapsed since the last call to this function, or since
    start otherwise, and reset that time reference. *)
Definition ElapsedTime (now later : Z) (stack : list frame) (ck : Clocks) : Go Clocks :=
  let elapsed := time_Since now (last ck) in
  let* _ :=
    (incr_offset ;;
     defer decr_offset (
       let* fmt := read (fun st => format_of st "elapsed") in
       Notice ((slogan_go, 234) :: stack)
         (fmt_Sprintf fmt [VAny (Duration_value elapsed)]))) in
  ret (resetLast later ck).

(** The severity functions with the level each one logs at. *)
Definition severity_functions : list ((list frame → string → Go unit) * Z) := [
  (Silent, Lsilent); (Emergency, Lemergency); (Alert, Lalert);
  (Critical, Lcritical); (Error, Lerror); (Warning, Lwarning);
  (Notice, Lnotice); (Info, Linfo); (Debug, Ldebug) ].

(** Whether [Log] goes past its gate and calls [logfmt]. *)
Definition Log_renders (level : Z) (log : string) (st : State) : bool :=
  bool_decide (Verbosity st >= level)
  && negb (bool_decide (NoEmpty st = true) && bool_decide (log = "")).

(** What [runtime.Caller] does on a stack: frame [skip], counted from the
    innermost. *)
Definition Caller_spec : Prop :=
  ∀ (stack : list frame) (skip : Z) (fr : frame),
    0 ≤ skip → stack !! Z.to_nat skip = Some fr → runtime_Caller stack skip = fr.

(** The line [logfmt] renders for a message of [level] whose caller was
    found at [file]:[line], with caller tracing on. *)
Definition line_with_caller (level : Z) (Tag log file : string) (line : Z)
    (st : State) : string :=
  let fn := if bool_decide (CallerBase st = true) then path_Base file else file in
  fmt_Sprintf (format_of st "caller")
    [VString (colorize "tag" level Tag st);
     VString (colorize "log" level log st);
     VString (colorize "caller" 10
                (fmt_Sprintf (format_of st "where") [VString fn; VInt line]) st)].

End helpers.

(** The platform of the README's run; durations show as any other value of
    the concrete environment. *)
Definition demo_platform : Platform demo := {|
  runtime_GOOS := "linux";
  runtime_GOARCH := "386";
  runtime_NumCPU := 4;
  runtime_Compiler := "gc";
  runtime_GOROOT := "/home/eric/git/goroot";
  Duration_value := fun _ => (tt : @Any demo);
|}.

(** The call stack of the examples: the package is called from line 17 of
    [main.go]. *)
Definition demo_stack : list frame := [("main.go", 17)].

(** Exit-on-error set, everything else as initialised (verbosity 5), on a
    terminal. *)
Definition demo_exit_on_error : State := set_ExitOnError true (initial true).

(** Exit-on-error set and verbosity 9, on a terminal. *)
Definition demo_verbose : State := set_Verbosity 9 demo_exit_on_error.

(** Exit-on-error and suppress-empty set, verbosity 9, not on a terminal. *)
Definition demo_no_empty : State :=
  set_NoEmpty true (set_ExitOnError true (set_Verbosity 9 (initial false))).

(** Caller tracing on, verbosity 9, not on a terminal. *)
Definition demo_tracing : State :=
  set_TraceCaller true (set_Verbosity 9 (initial false)).

(** On a terminal, with a style for errors that [setcolor] does not know. *)
Definition demo_pink : State :=
  set_colors (<[Lerror:="Pink"]> default_colors) (initial true).

(** ** Configurations that differ only in the part [prefix] *)

(** [st'] is [st] with another parts table, which agrees with the one of [st]
    on every part but [prefix]. *)
Definition same_but_prefix_part (st st' : State) : Prop :=
  ∃ p' : gmap string bool,
    st' = set_parts p' st ∧
    ∀ what : string, what ≠ "prefix" → p' !! what = parts st !! what.

(** * Properties *)

Section properties.
Context `{!Externals}.
Implicit Types (st : State) (stack : list frame) (level : Z) (log : string).

(** ** The tag array *)

Lemma tag_of_in_range st level : 0 ≤ level ≤ 9 → is_Some (tag_of st level).
Proof.
  intros Hl. unfold tag_of. rewrite decide_True by lia.
  apply lookup_lt_is_Some. rewrite length_vec_to_list. lia.
Qed.

Lemma tag_of_out_of_range st level : ¬ (0 ≤ level ≤ 9) → tag_of st level = None.
Proof.
  intros Hl. unfold tag_of. case_decide; [|done].
  apply lookup_ge_None. rewrite length_vec_to_list. lia.
Qed.

Lemma logfmt_in_range stack level log st :
  0 ≤ level ≤ 9 → is_Some (logfmt stack level log st).
Proof.
  intros Hl. unfold logfmt.
  destruct (tag_of_in_range st level Hl) as [Tag ->]. simpl.
  destruct (runtime_Caller _ _). case_bool_decide; eauto.
Qed.

Lemma logfmt_out_of_range stack level log st :
  ¬ (0 ≤ level ≤ 9) → logfmt stack level log st = None.
Proof. intros Hl. unfold logfmt. by rewrite tag_of_out_of_range. Qed.

(** ** The two statements of [Log] *)

Lemma convoy_if {T} (c : bool) (X Y : T) :
  (if c as b return (c = b → T) then fun _ => X else fun _ => Y) eq_refl
  = if c then X else Y.
Proof. by destruct c. Qed.

(** What the first statement does, case by case. *)
Lemma Log_emit_skip stack level log st :
  ¬ (Verbosity st >= level) ∨ (NoEmpty st = true ∧ log = "") →
  Log_emit stack level log st = Returned tt st.
Proof.
  intros Hskip. unfold Log_emit. case_bool_decide; [|done].
  destruct Hskip as [?|[-> ->]]; [done|]. by rewrite bool_decide_eq_true_2.
Qed.

Lemma Log_emit_write stack level log st Str :
  Verbosity st >= level → NoEmpty st = false ∨ log ≠ "" →
  logfmt ((slogan_go, 405) :: stack) level log st = Some Str →
  Log_emit stack level log st
  = Returned tt (set_written (written st ++ [(logger st, Str)]) st).
Proof.
  intros Hv Hne HStr. unfold Log_emit.
  rewrite bool_decide_eq_true_2 by done.
  replace (bool_decide (NoEmpty st = true) && bool_decide (String.length log = 0%nat))
    with false.
  - by rewrite HStr.
  - symmetry. apply andb_false_iff. destruct Hne as [Hne|Hne].
    + left. apply bool_decide_eq_false_2. congruence.
    + right. apply bool_decide_eq_false_2. by destruct log.
Qed.

Lemma Log_emit_panic stack level log st :
  Verbosity st >= level → NoEmpty st = false ∨ log ≠ "" →
  logfmt ((slogan_go, 405) :: stack) level log st = None →
  Log_emit stack level log st = Panicked st.
Proof.
  intros Hv Hne HStr. unfold Log_emit.
  rewrite bool_decide_eq_true_2 by done.
  replace (bool_decide (NoEmpty st = true) && bool_decide (String.length log = 0%nat))
    with false.
  - by rewrite HStr.
  - symmetry. apply andb_false_iff. destruct Hne as [Hne|Hne].
    + left. apply bool_decide_eq_false_2. congruence.
    + right. apply bool_decide_eq_false_2. by destruct log.
Qed.

(** The first statement only appends to [written]. *)
Lemma Log_emit_frame stack level log st :
  ∃ lines, final (Log_emit stack level log st)
           = set_written (written st ++ lines) st.
Proof.
  unfold Log_emit. destruct st; simpl.
  repeat (case_bool_decide; simpl); try (exists []; simpl; by rewrite app_nil_r).
  all: match goal with |- context [logfmt ?a ?b ?c ?d] => destruct (logfmt a b c d) end; simpl.
  all: try (exists []; simpl; by rewrite app_nil_r).
  all: eexists; reflexivity.
Qed.

Lemma Log_emit_fatal stack level log st :
  Log_fatal level (final (Log_emit stack level log st)) = Log_fatal level st.
Proof. by destruct (Log_emit_frame stack level log st) as [lines ->]. Qed.

(** A call that does not meet the exit condition is its first statement. *)
Lemma Log_not_fatal stack level log st :
  Log_fatal level st = false →
  Log stack level log st = Log_emit stack level log st.
Proof.
  intros Hf. rewrite Log_equation_1. unfold bind.
  pose proof (Log_emit_fatal stack level log st) as Hf1.
  destruct (Log_emit stack level log st) as [[] st1|code st1|st1]; try done.
  simpl in Hf1. rewrite convoy_if, Hf1, Hf. by rewrite bool_decide_eq_false_2.
Qed.

Lemma Debug_emit stack log st :
  Debug stack log st = Log_emit ((slogan_go, 355) :: stack) Ldebug log st.
Proof. unfold Debug. by rewrite Log_not_fatal. Qed.

(** [Debug] returns, having written at most one line. *)
Lemma Debug_fatal_lines stack level st :
  Debug ((slogan_go, 414) :: stack)
    (fmt_Sprintf (format_of st "fatal") [VInt level]) (at_exit st)
  = Returned tt (set_written (written st ++ fatal_lines stack level st) (at_exit st)).
Proof.
  rewrite Debug_emit. unfold fatal_lines.
  set (msg := fmt_Sprintf (format_of st "fatal") [VInt level]).
  destruct (logfmt_in_range
              ((slogan_go, 405) :: (slogan_go, 355) :: (slogan_go, 414) :: stack)
              Ldebug msg (at_exit st)) as [Str HStr]; [unfold Ldebug; lia|].
  rewrite HStr.
  destruct (bool_decide (Verbosity st >= Ldebug)) eqn:Hv; simpl.
  - apply bool_decide_eq_true_1 in Hv.
    destruct (bool_decide (NoEmpty st = true)
              && bool_decide (String.length msg = 0%nat)) eqn:He; simpl.
    + apply andb_true_iff in He as [Hn Hm].
      apply bool_decide_eq_true_1 in Hn. apply bool_decide_eq_true_1 in Hm.
      rewrite Log_emit_skip.
      * by rewrite app_nil_r; destruct st.
      * right. split; [done|]. by destruct msg.
    + rewrite (Log_emit_write _ _ _ _ Str); [done|done| |done].
      apply andb_false_iff in He as [Hn|Hm].
      * left. apply bool_decide_eq_false_1 in Hn. simpl. by destruct (NoEmpty st).
      * right. apply bool_decide_eq_false_1 in Hm. by intros ->.
  - apply bool_decide_eq_false_1 in Hv. rewrite Log_emit_skip; [|by left].
    by rewrite app_nil_r; destruct st.
Qed.

(** [Log] in closed form: the emission, then either a normal return or the
    exit path, which logs the [fatal] message through [Debug] and exits
    before the deferred decrements run. *)
Lemma Log_closed_form stack level log st :
  Log stack level log st =
  match Log_emit stack level log st with
  | Returned _ st1 =>
      if Log_fatal level st
      then Exited level
             (set_written (written st1 ++ fatal_lines stack level st) (at_exit st1))
      else Returned tt st1
  | o => o
  end.
Proof.
  destruct (Log_fatal level st) eqn:Hf.
  - rewrite Log_equation_1. unfold bind at 1.
    pose proof (Log_emit_fatal stack level log st) as Hf1.
    destruct (Log_emit_frame stack level log st) as [lines Hfr].
    destruct (Log_emit stack level log st) as [[] st1|code st1|st1]; try done.
    simpl in Hf1, Hfr. rewrite convoy_if, Hf1, Hf. rewrite bool_decide_eq_true_2 by done.
    pose proof (Debug_fatal_lines stack level st1) as Hd. unfold Debug in Hd.
    unfold bind, incr_offset, assign, defer, os_Exit.
    change (set_offset _ (set_offset _ st1)) with (at_exit st1).
    change (format_of (at_exit st1) "fatal") with (format_of st1 "fatal").
    rewrite Hd. do 2 f_equal. subst st1. reflexivity.
  - rewrite Log_not_fatal by done.
    by destruct (Log_emit stack level log st) as [[] st1|code st1|st1].
Qed.

(** In range, the first statement returns: it wrote the rendered line if the
    gate let it through, and nothing otherwise. *)
Lemma Log_emit_in_range stack level log st :
  0 ≤ level ≤ 9 →
  ∃ Str, logfmt ((slogan_go, 405) :: stack) level log st = Some Str ∧
    Log_emit stack level log st =
    Returned tt
      (if bool_decide (Verbosity st >= level)
          && negb (bool_decide (NoEmpty st = true) && bool_decide (log = ""))
       then set_written (written st ++ [(logger st, Str)]) st
       else st).
Proof.
  intros Hl. destruct (logfmt_in_range ((slogan_go, 405) :: stack) level log st Hl)
    as [Str HStr].
  exists Str. split; [done|].
  destruct (bool_decide (Verbosity st >= level)) eqn:Hv; simpl.
  - apply bool_decide_eq_true_1 in Hv.
    destruct (bool_decide (NoEmpty st = true) && bool_decide (log = "")) eqn:He; simpl.
    + apply andb_true_iff in He as [Hn Hm].
      apply bool_decide_eq_true_1 in Hn. apply bool_decide_eq_true_1 in Hm.
      apply Log_emit_skip. by right.
    + apply Log_emit_write; [done| |done].
      apply andb_false_iff in He as [Hn|Hm].
      * left. apply bool_decide_eq_false_1 in Hn. by destruct (NoEmpty st).
      * right. by apply bool_decide_eq_false_1 in Hm.
  - apply bool_decide_eq_false_1 in Hv. apply Log_emit_skip. by left.
Qed.

(** The exit path is taken at level 5 or below, where a verbosity that gates
    the message out also gates the debug line out. *)
Lemma Log_fatal_level level st : Log_fatal level st = true → level ≤ Lwarning.
Proof.
  unfold Log_fatal, Lwarning. intros Hf.
  repeat case_bool_decide; simpl in Hf; try discriminate; lia.
Qed.

Lemma fatal_lines_quiet stack level st :
  ¬ (Verbosity st >= Ldebug) → fatal_lines stack level st = [].
Proof. intros Hv. unfold fatal_lines. by rewrite bool_decide_eq_false_2. Qed.

(** ** The severity gate *)

(** C1.  For a level in [0,9] and suppress-empty off, [Log level log] hands
    the rendering of [log] to the logger, as the next line of the sink, if
    and only if [Verbosity >= level]; when the gate is closed the call writes
    nothing at all. *)
Theorem Log_emits_iff_verbose stack level log st :
  0 ≤ level ≤ 9 → NoEmpty st = false →
  ∃ Str, logfmt ((slogan_go, 405) :: stack) level log st = Some Str ∧
    ((∃ more, written (final (Log stack level log st))
              = written st ++ (logger st, Str) :: more)
     ↔ Verbosity st >= level) ∧
    (¬ (Verbosity st >= level) →
     written (final (Log stack level log st)) = written st).
Proof.
  intros Hl Hne.
  destruct (Log_emit_in_range stack level log st Hl) as (Str & HStr & Hemit).
  exists Str. split; [done|].
  rewrite Log_closed_form, Hemit, Hne. simpl.
  assert (Hclosed : ¬ (Verbosity st >= level) →
    written (final (if Log_fatal level st
                    then Exited level
                           (set_written (written st ++ fatal_lines stack level st)
                              (at_exit st))
                    else Returned tt st : outcome unit)) = written st).
  { intros Hv. destruct (Log_fatal level st) eqn:Hf; [|done]. simpl.
    apply Log_fatal_level in Hf. rewrite fatal_lines_quiet.
    - apply app_nil_r.
    - unfold Ldebug, Lwarning in *. lia. }
  destruct (bool_decide (Verbosity st >= level)) eqn:Hv; simpl.
  - apply bool_decide_eq_true_1 in Hv. split; [|done].
    split; [done|]. intros _.
    destruct (Log_fatal level st); simpl; eexists.
    + rewrite <- app_assoc. reflexivity.
    + reflexivity.
  - apply bool_decide_eq_false_1 in Hv. split; [|done].
    split; [|done]. intros [more Hmore]. rewrite Hclosed in Hmore by done.
    rewrite <- (app_nil_r (written st)) in Hmore at 1.
    by apply app_inv_head in Hmore.
Qed.

(** How [Log] ends, for a level in range. *)
Lemma Log_status stack level log st :
  0 ≤ level ≤ 9 →
  status_of (Log stack level log st)
  = if Log_fatal level st then exits level else returns.
Proof.
  intros Hl. destruct (Log_emit_in_range stack level log st Hl) as (Str & _ & Hemit).
  rewrite Log_closed_form, Hemit. by destruct (Log_fatal level st).
Qed.

(** C2, as amended.  With exit-on-error set and warning-as-error unset, a
    call at level 1 to 4 exits with the level as status and a call at level 5
    returns; levels 6 to 9 always return; with warning-as-error also set,
    level 5 exits with status 5.  Whenever a call exits, the status is the
    level, and before exiting it logged the [fatal] message (argument: the
    level) with [Debug], two frames deeper: that line reaches the sink exactly
    when [Verbosity >= 8] (and the message is not suppressed as empty), not
    unconditionally. *)
Theorem Log_exit_policy stack level log st :
  (ExitOnError st = true → 1 ≤ level ≤ 4 →
   status_of (Log stack level log st) = exits level) ∧
  (ExitOnError st = true → WarningAsError st = false → level = 5 →
   status_of (Log stack level log st) = returns) ∧
  (6 ≤ level ≤ 9 → status_of (Log stack level log st) = returns) ∧
  (ExitOnError st = true → WarningAsError st = true → level = 5 →
   status_of (Log stack level log st) = exits 5) ∧
  (∀ code, status_of (Log stack level log st) = exits code →
   code = level ∧
   let msg := fmt_Sprintf (format_of st "fatal") [VInt level] in
   ∃ Str,
     logfmt ((slogan_go, 405) :: (slogan_go, 355) :: (slogan_go, 414) :: stack)
       Ldebug msg (at_exit st) = Some Str ∧
     written (final (Log stack level log st))
     = written (final (Log_emit stack level log st))
       ++ (if bool_decide (Verbosity st >= Ldebug)
              && negb (bool_decide (NoEmpty st = true) && bool_decide (msg = ""))
           then [(logger st, Str)] else [])).
Proof.
  split; [|split; [|split; [|split]]].
  - intros He Hl. rewrite Log_status by lia.
    unfold Log_fatal, Lwarning. rewrite He.
    by rewrite (bool_decide_eq_true_2 (level < 5)) by lia.
  - intros He Hw ->. rewrite Log_status by lia.
    unfold Log_fatal, Lwarning. by rewrite Hw.
  - intros Hl. rewrite Log_status by lia.
    unfold Log_fatal, Lwarning.
    rewrite (bool_decide_eq_false_2 (level < 5)) by lia.
    by rewrite (bool_decide_eq_false_2 (level = 5)) by lia.
  - intros He Hw ->. rewrite Log_status by lia.
    unfold Log_fatal, Lwarning. by rewrite He, Hw.
  - intros code. rewrite Log_closed_form.
    destruct (Log_emit_frame stack level log st) as [lines Hfr].
    destruct (Log_emit stack level log st) as [[] st1|c st1|st1] eqn:Hemit.
    + destruct (Log_fatal level st); simpl; [|done].
      intros [= <-]. split; [done|].
      set (msg := fmt_Sprintf (format_of st "fatal") [VInt level]).
      destruct (logfmt_in_range
                  ((slogan_go, 405) :: (slogan_go, 355) :: (slogan_go, 414) :: stack)
                  Ldebug msg (at_exit st)) as [Str HStr]; [unfold Ldebug; lia|].
      exists Str. split; [done|]. f_equal.
      unfold fatal_lines. fold msg. rewrite HStr.
      replace (bool_decide (String.length msg = 0%nat)) with (bool_decide (msg = ""));
        [done|].
      apply bool_decide_ext. by destruct msg.
    + unfold Log_emit in Hemit. unfold logger_Println, assign, panic, ret in Hemit.
      repeat case_match; discriminate.
    + done.
Qed.

(** C3: the claim holds of the documented policy (exit statuses are 1 to 4,
    or 5), not of the code.  [Log] tests [level < Lwarning] without exempting
    [Lsilent], so with exit-on-error set a [Silent] call ends the process, with
    status 0, whatever warning-as-error is. *)
Theorem Silent_exits_with_status_0 stack log st :
  ExitOnError st = true → status_of (Silent stack log st) = exits 0.
Proof.
  intros He. unfold Silent. rewrite Log_status by (unfold Lsilent; lia).
  unfold Log_fatal. by rewrite He.
Qed.


(** ** The color decorator *)

(** C5.  [colorize] returns the text unchanged when the destination is not a
    terminal and force-colorize is off, or when colorize is off, or when the
    part is not enabled in the parts table, or when the style found for the
    level is empty or is none of the names [setcolor] knows; each condition
    alone is enough. *)
Theorem colorize_passthrough what level str st :
  (isTerminal st = false ∧ ForceColorize st = false)
  ∨ Colorize st = false
  ∨ part_of st what = false
  ∨ color_of st level = ""
  ∨ color_of st level ∉ color_names →
  colorize what level str st = str.
Proof.
  unfold colorize, setcolor.
  intros [[-> ->]|[->|[->|[->|Hname]]]]; try done.
  - by case_match.
  - rewrite andb_false_r. by case_match.
  - by repeat case_match.
  - rewrite (bool_decide_eq_false_2 _ Hname). by repeat case_match.
Qed.

(** ** The configuration registry *)

(** C6.  [SetTags], [SetFormats], [SetColors] and [SetParts] return the table
    that was installed before the call and install the new one: the [Get]
    that follows returns the table just supplied. *)
Theorem Set_returns_old_Get_returns_new st
    (t : vec string 10) (f : gmap string string) (c : gmap Z string)
    (p : gmap string bool) :
  (let* old := SetTags t in let* new := GetTags in ret (old, new)) st
  = Returned (tags st, t) (set_tags t st) ∧
  (let* old := SetFormats f in let* new := GetFormats in ret (old, new)) st
  = Returned (formats st, f) (set_formats f st) ∧
  (let* old := SetColors c in let* new := GetColors in ret (old, new)) st
  = Returned (colors st, c) (set_colors c st) ∧
  (let* old := SetParts p in let* new := GetParts in ret (old, new)) st
  = Returned (parts st, p) (set_parts p st).
Proof. repeat split. Qed.

(** C7: the claim is what the test in [SetOutput] is after, but the test is
    [w != os.Stderr || w != os.Stdout], which holds of every writer: the
    terminal flag is cleared also when the new sink is standard error or
    standard output. *)
Theorem SetOutput_clears_isTerminal w st :
  isTerminal (final (SetOutput w st)) = false.
Proof.
  unfold SetOutput, bind, assign, ret.
  destruct w; reflexivity.
Qed.

(** ** The severity API *)

(** C8: the claim is what [TraceCall] is after (a trace "with caller
    punctually": the mode switched on for one call and put back), but the
    code does not keep the mode it found: it defers [SetTraceCaller(false)].
    So the one [Trace] it makes runs with caller tracing on, and the call
    returns with caller tracing off also when it was on before; the mode is
    put back only if it was off. *)
Theorem TraceCall_leaves_tracing_off stack (trace : value Any) st :
  ∃ st1,
    Trace ((slogan_go, 374) :: stack) trace (set_TraceCaller true st)
    = Returned tt st1 ∧
    TraceCall stack trace st = Returned tt (set_TraceCaller false st1) ∧
    TraceCaller (final (TraceCall stack trace st)) = false ∧
    (TraceCaller (final (TraceCall stack trace st)) = TraceCaller st
     ↔ TraceCaller st = false).
Proof.
  assert (Htrace : ∃ st1,
    Trace ((slogan_go, 374) :: stack) trace (set_TraceCaller true st)
    = Returned tt st1).
  { unfold Trace. case_bool_decide; unfold bind, read.
    all: rewrite Log_not_fatal by done.
    all: match goal with |- context [Log_emit ?s ?l ?m ?t] =>
           destruct (Log_emit_in_range s l m t) as (Str & _ & ->);
             [unfold Ltrace; lia|] end.
    all: eauto. }
  destruct Htrace as [st1 Hst1]. exists st1. split; [done|].
  assert (Hcall : TraceCall stack trace st = Returned tt (set_TraceCaller false st1)).
  { unfold TraceCall, bind, assign, defer. by rewrite Hst1. }
  rewrite Hcall. simpl. repeat split; done.
Qed.

(** ** Totality *)

(** C9.  For a level in [0,9] the tag lookup is in bounds and [Log] does not
    panic.  For a level outside [0,9] that passes the gate ([Verbosity >=
    level], and the message is not suppressed as empty), [tags[level]] is out
    of range and [Log] panics. *)
Theorem Log_panics_out_of_range stack level log st :
  (0 ≤ level ≤ 9 →
   is_Some (tag_of st level) ∧ status_of (Log stack level log st) ≠ panics) ∧
  (¬ (0 ≤ level ≤ 9) → Verbosity st >= level → NoEmpty st = false ∨ log ≠ "" →
   tag_of st level = None ∧ status_of (Log stack level log st) = panics).
Proof.
  split.
  - intros Hl. split; [by apply tag_of_in_range|].
    rewrite Log_status by done. by case_match.
  - intros Hl Hv Hne. split; [by apply tag_of_out_of_range|].
    rewrite Log_closed_form, Log_emit_panic; try done.
    by apply logfmt_out_of_range.
Qed.

(** ** Non-interference of the part [prefix] *)

Lemma colorize_set_parts what level str st (p' : gmap string bool) :
  p' !! what = parts st !! what →
  colorize what level str (set_parts p' st) = colorize what level str st.
Proof. intros Hp. unfold colorize, setcolor, part_of. simpl. by rewrite Hp. Qed.

Lemma logfmt_set_parts stack level log st (p' : gmap string bool) :
  (∀ what : string, what ≠ "prefix" → p' !! what = parts st !! what) →
  logfmt stack level log (set_parts p' st) = logfmt stack level log st.
Proof.
  intros Hp. unfold logfmt.
  change (tag_of (set_parts p' st) level) with (tag_of st level).
  destruct (tag_of st level) as [Tag|]; [simpl|done].
  destruct (runtime_Caller _ _) as [fn_ line].
  by rewrite !colorize_set_parts by (by apply Hp).
Qed.

Lemma Log_emit_set_parts stack level log st (p' : gmap string bool) :
  (∀ what : string, what ≠ "prefix" → p' !! what = parts st !! what) →
  Log_emit stack level log (set_parts p' st)
  = match Log_emit stack level log st with
    | Returned a st1 => Returned a (set_parts p' st1)
    | Exited code st1 => Exited code (set_parts p' st1)
    | Panicked st1 => Panicked (set_parts p' st1)
    end.
Proof.
  intros Hp. unfold Log_emit. rewrite logfmt_set_parts by done. simpl.
  destruct (bool_decide (Verbosity st >= level)); [|done].
  destruct (bool_decide (NoEmpty st = true) && bool_decide (String.length log = 0%nat));
    simpl; [done|].
  by destruct (logfmt _ level log st).
Qed.

Lemma fatal_lines_set_parts stack level st (p' : gmap string bool) :
  (∀ what : string, what ≠ "prefix" → p' !! what = parts st !! what) →
  fatal_lines stack level (set_parts p' st) = fatal_lines stack level st.
Proof.
  intros Hp. unfold fatal_lines.
  change (at_exit (set_parts p' st)) with (set_parts p' (at_exit st)).
  by rewrite logfmt_set_parts.
Qed.

(** C10.  Two configurations that differ only in the entry of the parts
    table for [prefix] render every line alike: [logfmt] calls [colorize]
    for the parts [tag], [log] and [caller] only.  So a [Log] call ends the
    same way in both, leaves the same lines in the sink, and the two states
    it leaves still differ only in that entry. *)
Theorem prefix_part_unobservable stack level log st st' :
  same_but_prefix_part st st' →
  logfmt stack level log st' = logfmt stack level log st ∧
  status_of (Log stack level log st') = status_of (Log stack level log st) ∧
  written (final (Log stack level log st'))
  = written (final (Log stack level log st)) ∧
  same_but_prefix_part (final (Log stack level log st))
    (final (Log stack level log st')).
Proof.
  intros (p' & -> & Hp). split; [by apply logfmt_set_parts|].
  rewrite !Log_closed_form, Log_emit_set_parts, fatal_lines_set_parts by done.
  change (Log_fatal level (set_parts p' st)) with (Log_fatal level st).
  destruct (Log_emit_frame stack level log st) as [lines Hfr].
  destruct (Log_emit stack level log st) as [[] st1|code st1|st1];
    simpl in Hfr; subst st1.
  1: destruct (Log_fatal level st).
  all: repeat split; try done.
  all: by exists p'.
Qed.

End properties.

(** * More of the package *)

Section more_properties.
Context `{!Externals} `{!Platform _}.
Implicit Types (st : State) (stack : list frame) (level flag : Z) (log : string).

(** ** Go's [int] and single bits *)

Lemma int_wrap_is_int z : is_int z → int_wrap z = z.
Proof. unfold is_int, int_wrap. intros Hz. Z.div_mod_to_equations. lia. Qed.

(** An increment and a decrement cancel, also across the overflow. *)
Lemma int_sub_add_1 z : is_int z → int_sub (int_add z 1) 1 = z.
Proof.
  unfold is_int, int_sub, int_add, int_wrap. intros Hz.
  Z.div_mod_to_equations. lia.
Qed.

Lemma land_pow2_testbit (a n : Z) :
  0 ≤ n → Z.land a (2 ^ n) = 2 ^ n ↔ Z.testbit a n = true.
Proof.
  intros Hn. split; intros Hb.
  - apply (f_equal (fun z => Z.testbit z n)) in Hb.
    by rewrite Z.land_spec, Z.pow2_bits_eqb, Z.eqb_refl, andb_true_r in Hb.
  - apply Z.bits_inj'. intros i Hi.
    rewrite Z.land_spec, Z.pow2_bits_eqb by done.
    destruct (Z.eqb_spec n i) as [<-|]; [by rewrite Hb|by rewrite andb_false_r].
Qed.

Lemma sub_pow2_ldiff (a n : Z) :
  0 ≤ n → Z.testbit a n = true → a - 2 ^ n = Z.ldiff a (2 ^ n).
Proof.
  intros Hn Hb. apply Z.sub_nocarry_ldiff. apply Z.bits_inj'. intros i Hi.
  rewrite Z.ldiff_spec, Z.pow2_bits_eqb, Z.bits_0 by done.
  destruct (Z.eqb_spec n i) as [<-|]; [by rewrite Hb|done].
Qed.

Lemma ldiff_pow2_clear (a n : Z) :
  0 ≤ n → Z.testbit a n = false → Z.ldiff a (2 ^ n) = a.
Proof.
  intros Hn Hb. apply Z.bits_inj'. intros i Hi.
  rewrite Z.ldiff_spec, Z.pow2_bits_eqb by done.
  destruct (Z.eqb_spec n i) as [<-|]; [by rewrite Hb|by rewrite andb_true_r].
Qed.

Lemma ldiff_file_flags (a : Z) :
  Z.ldiff (Z.ldiff a Lshortfile) Llongfile
  = Z.ldiff a (Z.lor Llongfile Lshortfile).
Proof.
  apply Z.bits_inj'. intros i Hi.
  rewrite !Z.ldiff_spec, Z.lor_spec.
  by destruct (Z.testbit a i), (Z.testbit Lshortfile i), (Z.testbit Llongfile i).
Qed.

Lemma is_int_drop_bit (a n : Z) :
  n = 3 ∨ n = 4 → is_int a → Z.testbit a n = true → is_int (a - 2 ^ n).
Proof.
  intros Hn Ha Hb. apply Z.testbit_true in Hb; [|lia].
  unfold is_int in *.
  destruct Hn as [-> | ->].
  - change (2 ^ 3) with 8 in *. Z.div_mod_to_equations. lia.
  - change (2 ^ 4) with 16 in *. Z.div_mod_to_equations. lia.
Qed.

(** ** [SetFlags] *)

Lemma SetFlags_no_file_flag flag st :
  Z.testbit flag 4 = false → Z.testbit flag 3 = false →
  SetFlags flag st = Returned tt (logger_SetFlags flag st).
Proof.
  intros H4 H3. rewrite SetFlags_equation_1.
  destruct (decide _) as [Hs|_].
  { apply (land_pow2_testbit flag 4) in Hs; [congruence|lia]. }
  destruct (decide _) as [Hl|_]; [|done].
  apply (land_pow2_testbit flag 3) in Hl; [congruence|lia].
Qed.

Lemma SetFlags_long_only flag st :
  is_int flag → Z.testbit flag 4 = false → Z.testbit flag 3 = true →
  SetFlags flag st
  = Returned tt (logger_SetFlags (Z.ldiff flag Llongfile)
                   (set_CallerBase false (set_TraceCaller true st))).
Proof.
  intros Hi H4 H3. rewrite SetFlags_equation_1.
  destruct (decide _) as [Hs|_].
  { apply (land_pow2_testbit flag 4) in Hs; [congruence|lia]. }
  destruct (decide _) as [_|Hl].
  2: { exfalso. apply Hl. by apply (land_pow2_testbit flag 3). }
  unfold int_sub. rewrite int_wrap_is_int by (by apply (is_int_drop_bit flag 3); auto).
  change Llongfile with (2 ^ 3). rewrite sub_pow2_ldiff by (done || lia).
  apply SetFlags_no_file_flag; rewrite Z.ldiff_spec, ?H4, ?H3; done.
Qed.

(** [SetFlags] in closed form. *)
Lemma SetFlags_closed_form flag st :
  is_int flag →
  SetFlags flag st
  = Returned tt
      (logger_SetFlags (Z.ldiff flag (Z.lor Llongfile Lshortfile))
         (if Z.testbit flag 4 || Z.testbit flag 3
          then set_CallerBase (negb (Z.testbit flag 3)) (set_TraceCaller true st)
          else st)).
Proof.
  intros Hi. rewrite <- ldiff_file_flags.
  destruct (Z.testbit flag 4) eqn:H4; cbn [orb].
  - rewrite SetFlags_equation_1.
    destruct (decide _) as [_|Hs].
    2: { exfalso. apply Hs. by apply (land_pow2_testbit flag 4). }
    assert (Hi' : is_int (flag - 2 ^ 4)) by (by apply is_int_drop_bit; auto).
    unfold int_sub. change Lshortfile with (2 ^ 4).
    rewrite int_wrap_is_int by done.
    rewrite sub_pow2_ldiff in * by (done || lia).
    assert (H4' : Z.testbit (Z.ldiff flag (2 ^ 4)) 4 = false).
    { by rewrite Z.ldiff_spec, H4. }
    assert (H3' : Z.testbit (Z.ldiff flag (2 ^ 4)) 3 = Z.testbit flag 3).
    { rewrite Z.ldiff_spec. change (Z.testbit (2 ^ 4) 3) with false.
      by rewrite andb_true_r. }
    destruct (Z.testbit flag 3) eqn:H3; cbn [negb].
    + by rewrite SetFlags_long_only.
    + rewrite SetFlags_no_file_flag by done.
      change Llongfile with (2 ^ 3). by rewrite (ldiff_pow2_clear _ 3) by (done || lia).
  - change Lshortfile with (2 ^ 4). rewrite (ldiff_pow2_clear _ 4) by (done || lia).
    destruct (Z.testbit flag 3) eqn:H3; cbn [negb].
    + by rewrite SetFlags_long_only.
    + rewrite SetFlags_no_file_flag by done.
      change Llongfile with (2 ^ 3). by rewrite (ldiff_pow2_clear _ 3) by (done || lia).
Qed.

(** X1.  [SetFlags(flag)] hands the legacy logger the flags without
    [Lshortfile] and [Llongfile]: the logger never prints a file and line of
    its own.  Every other bit of [flag] is passed on as it is, and the
    logger keeps its output and prefix. *)
Theorem SetFlags_logger_flags flag st :
  is_int flag →
  logger (final (SetFlags flag st))
  = mkLogger (logger_out (logger st)) (logger_prefix (logger st))
      (Z.ldiff flag (Z.lor Llongfile Lshortfile)) ∧
  Z.land (logger_flags (logger (final (SetFlags flag st)))) Lshortfile = 0 ∧
  Z.land (logger_flags (logger (final (SetFlags flag st)))) Llongfile = 0 ∧
  ∀ n, 0 ≤ n → n ≠ 3 → n ≠ 4 →
    Z.testbit (logger_flags (logger (final (SetFlags flag st)))) n
    = Z.testbit flag n.
Proof.
  intros Hi. rewrite SetFlags_closed_form by done. simpl.
  split; [by destruct (_ || _)|].
  assert (Hbits : ∀ n, 0 ≤ n →
    Z.testbit (Z.ldiff flag (Z.lor Llongfile Lshortfile)) n
    = Z.testbit flag n && negb ((n =? 3) || (n =? 4))).
  { intros n Hn. rewrite Z.ldiff_spec, Z.lor_spec.
    change Llongfile with (2 ^ 3). change Lshortfile with (2 ^ 4).
    rewrite !Z.pow2_bits_eqb by lia.
    by rewrite (Z.eqb_sym 3 n), (Z.eqb_sym 4 n). }
  split; [|split].
  - apply Z.bits_inj'. intros n Hn.
    rewrite Z.land_spec, Hbits, Z.bits_0 by done.
    change Lshortfile with (2 ^ 4). rewrite Z.pow2_bits_eqb by lia.
    rewrite (Z.eqb_sym 4 n). destruct (n =? 4); [|by rewrite andb_false_r].
    by rewrite orb_true_r, andb_false_r.
  - apply Z.bits_inj'. intros n Hn.
    rewrite Z.land_spec, Hbits, Z.bits_0 by done.
    change Llongfile with (2 ^ 3). rewrite Z.pow2_bits_eqb by lia.
    rewrite (Z.eqb_sym 3 n). destruct (n =? 3); [|by rewrite andb_false_r].
    by rewrite andb_false_r.
  - intros n Hn H3 H4. rewrite Hbits by done.
    rewrite (proj2 (Z.eqb_neq n 3)), (proj2 (Z.eqb_neq n 4)) by done.
    by rewrite andb_true_r.
Qed.

(** X2.  [SetFlags] returns.  With [Llongfile] in the flags, caller tracing
    is on afterwards with the full path, also when [Lshortfile] is given
    too; with [Lshortfile] alone, it is on with the base name; with neither,
    the two modes stay as they were: [SetFlags] never turns caller tracing
    off. *)
Theorem SetFlags_caller_modes flag st :
  is_int flag →
  status_of (SetFlags flag st) = returns ∧
  (Z.land flag Llongfile = Llongfile →
   TraceCaller (final (SetFlags flag st)) = true ∧
   CallerBase (final (SetFlags flag st)) = false) ∧
  (Z.land flag Lshortfile = Lshortfile → Z.land flag Llongfile ≠ Llongfile →
   TraceCaller (final (SetFlags flag st)) = true ∧
   CallerBase (final (SetFlags flag st)) = true) ∧
  (Z.land flag Lshortfile ≠ Lshortfile → Z.land flag Llongfile ≠ Llongfile →
   TraceCaller (final (SetFlags flag st)) = TraceCaller st ∧
   CallerBase (final (SetFlags flag st)) = CallerBase st).
Proof.
  intros Hi. rewrite SetFlags_closed_form by done.
  change Llongfile with (2 ^ 3). change Lshortfile with (2 ^ 4).
  rewrite !land_pow2_testbit by lia.
  destruct (Z.testbit flag 4), (Z.testbit flag 3); simpl; repeat split; done.
Qed.

(** ** [Log]: what it leaves behind and how it ends *)

(** X3.  [Log] changes no package variable.  If it returns, the state is the
    one before the call with at most one line more in the sink; if it
    panics, nothing at all has changed; if it exits, at most two lines were
    written and only the offset differs, by the two increments whose
    deferred decrements never ran. *)
Theorem Log_frame stack level log st :
  ∃ lines : list (Logger * string),
    match status_of (Log stack level log st) with
    | returns =>
        final (Log stack level log st) = set_written (written st ++ lines) st ∧
        (length lines ≤ 1)%nat
    | exits _ =>
        final (Log stack level log st)
        = set_written (written st ++ lines) (at_exit st) ∧
        (length lines ≤ 2)%nat
    | panics => final (Log stack level log st) = st ∧ lines = []
    end.
Proof.
  rewrite Log_closed_form. unfold Log_emit, logger_Println, assign, panic, ret.
  assert (Hfl : (length (fatal_lines stack level st) ≤ 1)%nat).
  { unfold fatal_lines. repeat case_match; simpl; lia. }
  assert (Hnil : set_written (written st ++ []) st = st).
  { rewrite app_nil_r. by destruct st. }
  assert (Hquiet : ∃ lines : list (Logger * string),
    match status_of (if Log_fatal level st
                     then Exited level
                            (set_written (written st ++ fatal_lines stack level st)
                               (at_exit st))
                     else Returned tt st : outcome unit) with
    | returns =>
        final (if Log_fatal level st
               then Exited level
                      (set_written (written st ++ fatal_lines stack level st)
                         (at_exit st))
               else Returned tt st : outcome unit)
        = set_written (written st ++ lines) st ∧ (length lines ≤ 1)%nat
    | exits _ =>
        final (if Log_fatal level st
               then Exited level
                      (set_written (written st ++ fatal_lines stack level st)
                         (at_exit st))
               else Returned tt st : outcome unit)
        = set_written (written st ++ lines) (at_exit st) ∧ (length lines ≤ 2)%nat
    | panics =>
        final (if Log_fatal level st
               then Exited level
                      (set_written (written st ++ fatal_lines stack level st)
                         (at_exit st))
               else Returned tt st : outcome unit) = st ∧ lines = []
    end).
  { destruct (Log_fatal level st); simpl.
    - exists (fatal_lines stack level st). split; [done|lia].
    - exists []. split; [done|simpl; lia]. }
  destruct (bool_decide (Verbosity st >= level)); [|exact Hquiet].
  destruct (bool_decide (NoEmpty st = true) && bool_decide (String.length log = 0%nat));
    [exact Hquiet|]. simpl.
  destruct (logfmt _ level log st) as [Str|]; [|by exists []].
  destruct (Log_fatal level st); simpl.
  - exists ((logger st, Str) :: fatal_lines stack level st). split.
    + by rewrite <- app_assoc.
    + simpl. lia.
  - exists [(logger st, Str)]. split; [done|simpl; lia].
Qed.

(** X4.  How [Log] ends, for every level: it panics exactly when it goes
    past the gate with a level outside [0,9]; otherwise it exits, with the
    level as status, exactly when the exit condition holds, and returns
    otherwise.  So a level below 0 that the verbosity gates out still ends
    the process under exit-on-error, with that negative status. *)
Theorem Log_status_every_level stack level log st :
  status_of (Log stack level log st)
  = if Log_renders level log st && negb (bool_decide (0 ≤ level ≤ 9)) then panics
    else if Log_fatal level st then exits level
    else returns.
Proof.
  unfold Log_renders.
  destruct (decide (0 ≤ level ≤ 9)) as [Hl|Hl].
  - rewrite (bool_decide_eq_true_2 _ Hl), andb_false_r. by apply Log_status.
  - rewrite (bool_decide_eq_false_2 _ Hl), andb_true_r.
    rewrite Log_closed_form.
    destruct (bool_decide (Verbosity st >= level)) eqn:Hv; simpl.
    + apply bool_decide_eq_true_1 in Hv.
      destruct (bool_decide (NoEmpty st = true) && bool_decide (log = "")) eqn:He; simpl.
      * apply andb_true_iff in He as [Hn He].
        apply bool_decide_eq_true_1 in Hn. apply bool_decide_eq_true_1 in He.
        rewrite Log_emit_skip by (by right). by destruct (Log_fatal level st).
      * rewrite Log_emit_panic; [done|done| |by apply logfmt_out_of_range].
        apply andb_false_iff in He as [Hn|He].
        -- left. apply bool_decide_eq_false_1 in Hn. by destruct (NoEmpty st).
        -- right. by apply bool_decide_eq_false_1 in He.
    + apply bool_decide_eq_false_1 in Hv.
      rewrite Log_emit_skip by (by left). by destruct (Log_fatal level st).
Qed.


(** A call in range that does not meet the exit condition returns, having
    written the rendered line if it went past the gate. *)
Lemma Log_returns stack level log st :
  0 ≤ level ≤ 9 → Log_fatal level st = false →
  ∃ Str, logfmt ((slogan_go, 405) :: stack) level log st = Some Str ∧
    Log stack level log st
    = Returned tt (if Log_renders level log st
                   then set_written (written st ++ [(logger st, Str)]) st
                   else st).
Proof.
  intros Hl Hf. rewrite Log_not_fatal by done.
  by apply Log_emit_in_range.
Qed.

(** The same one frame deeper, between an increment of the offset and its
    deferred decrement: the offset is back where it was. *)
Lemma Log_one_deeper stack level (name : string) (args : list (value Any)) st :
  0 ≤ level ≤ 9 → Log_fatal level st = false → is_int (offset st) →
  ∃ Str,
    logfmt ((slogan_go, 405) :: stack) level
      (fmt_Sprintf (format_of st name) args)
      (set_offset (int_add (offset st) 1) st) = Some Str ∧
    (incr_offset ;;
     defer decr_offset (
       let* fmt := read (fun st => format_of st name) in
       Log stack level (fmt_Sprintf fmt args))) st
    = Returned tt
        (if Log_renders level (fmt_Sprintf (format_of st name) args) st
         then set_written (written st ++ [(logger st, Str)]) st
         else st).
Proof.
  intros Hl Hf Hi.
  set (st1 := set_offset (int_add (offset st) 1) st).
  destruct (Log_returns stack level (fmt_Sprintf (format_of st name) args) st1 Hl Hf)
    as (Str & HStr & HLog).
  exists Str. split; [done|].
  unfold bind, incr_offset, assign, defer, read. fold st1.
  change (format_of st1 name) with (format_of st name).
  rewrite HLog.
  change (Log_renders level (fmt_Sprintf (format_of st name) args) st1)
    with (Log_renders level (fmt_Sprintf (format_of st name) args) st).
  f_equal. unfold decr_offset.
  destruct (Log_renders _ _ _); subst st1; simpl;
    rewrite int_sub_add_1 by done; by destruct st.
Qed.

(** ** The functions built on [Log] *)

(** X6.  A severity function never panics, in any state: it logs at its own
    level, an index of the tag array.  It ends the process, with its level as
    status, exactly when the exit condition of [Log] holds for that level,
    and returns otherwise. *)
Theorem severity_functions_status f level stack log st :
  (f, level) ∈ severity_functions →
  0 ≤ level ≤ 8 ∧
  status_of (f stack log st) = if Log_fatal level st then exits level else returns.
Proof.
  unfold severity_functions. intros Hf.
  repeat (apply elem_of_cons in Hf as [[= -> ->]|Hf];
          [split; [done|by apply Log_status]|]).
  by apply elem_of_nil in Hf.
Qed.

(** X7.  [Trace] returns in every state and changes no package variable.
    Under verbosity 9 it writes one line, the rendering at level 9 of the
    value formatted with the [empty] format if [%v] shows it as [[]], and
    with the [trace] format otherwise; below 9 it writes nothing. *)
Theorem Trace_writes_one_line stack (trace : value Any) st :
  let name := if bool_decide (fmt_Sprintf "%v" [trace] = "[]")
              then "empty" else "trace" in
  let site := if bool_decide (fmt_Sprintf "%v" [trace] = "[]")
              then (slogan_go, 362) else (slogan_go, 364) in
  let msg := fmt_Sprintf (format_of st name) [trace] in
  ∃ Str,
    logfmt ((slogan_go, 405) :: site :: stack) Ltrace msg st = Some Str ∧
    Trace stack trace st
    = Returned tt (if Log_renders Ltrace msg st
                   then set_written (written st ++ [(logger st, Str)]) st
                   else st).
Proof.
  simpl. unfold Trace. case_bool_decide; unfold bind, read.
  all: by apply Log_returns.
Qed.

(** X8.  [Runtime] returns in every state, with the offset back where it
    was and no package variable changed.  Under verbosity 8 it writes one
    line: the rendering at debug level, with the offset one up, of the
    [runtime] format applied to OS, architecture, CPU count, compiler and
    root. *)
Theorem Runtime_writes_one_line stack st :
  is_int (offset st) →
  let msg := fmt_Sprintf (format_of st "runtime")
               [VString runtime_GOOS; VString runtime_GOARCH;
                VInt runtime_NumCPU; VString runtime_Compiler;
                VString runtime_GOROOT] in
  ∃ Str,
    logfmt ((slogan_go, 405) :: (slogan_go, 355) :: (slogan_go, 383) :: stack)
      Ldebug msg (set_offset (int_add (offset st) 1) st) = Some Str ∧
    Runtime stack st
    = Returned tt (if Log_renders Ldebug msg st
                   then set_written (written st ++ [(logger st, Str)]) st
                   else st).
Proof.
  intros Hi. simpl. unfold Runtime, Debug.
  by apply Log_one_deeper.
Qed.

(** X9.  [AllDone] returns in every state, with the offset back where it
    was and no package variable changed.  It reports, at notice level (so
    under verbosity 6 and up), the time since [start] as read when the call
    begins, and then sets [start], and only [start], to the time read when
    the call ends. *)
Theorem AllDone_reports_and_resets now later stack (ck : Clocks) st :
  is_int (offset st) →
  let msg := fmt_Sprintf (format_of st "alldone")
               [VAny (Duration_value (time_Since now (start ck)))] in
  ∃ Str,
    logfmt ((slogan_go, 405) :: (slogan_go, 345) :: (slogan_go, 225) :: stack)
      Lnotice msg (set_offset (int_add (offset st) 1) st) = Some Str ∧
    AllDone now later stack ck st
    = Returned (mkClocks later (last ck))
        (if Log_renders Lnotice msg st
         then set_written (written st ++ [(logger st, Str)]) st
         else st).
Proof.
  intros Hi. simpl. unfold AllDone, Notice.
  destruct (Log_one_deeper ((slogan_go, 345) :: (slogan_go, 225) :: stack) Lnotice
              "alldone" [VAny (Duration_value (time_Since now (start ck)))] st)
    as (Str & HStr & Hrun); [done..|].
  exists Str. split; [done|].
  unfold bind at 1. by rewrite Hrun.
Qed.

(** X10.  [ElapsedTime] does the same with the other time reference: it
    reports the time since [last] with the [elapsed] format, and then sets
    [last], and only [last]. *)
Theorem ElapsedTime_reports_and_resets now later stack (ck : Clocks) st :
  is_int (offset st) →
  let msg := fmt_Sprintf (format_of st "elapsed")
               [VAny (Duration_value (time_Since now (last ck)))] in
  ∃ Str,
    logfmt ((slogan_go, 405) :: (slogan_go, 345) :: (slogan_go, 234) :: stack)
      Lnotice msg (set_offset (int_add (offset st) 1) st) = Some Str ∧
    ElapsedTime now later stack ck st
    = Returned (mkClocks (start ck) later)
        (if Log_renders Lnotice msg st
         then set_written (written st ++ [(logger st, Str)]) st
         else st).
Proof.
  intros Hi. simpl. unfold ElapsedTime, Notice.
  destruct (Log_one_deeper ((slogan_go, 345) :: (slogan_go, 234) :: stack) Lnotice
              "elapsed" [VAny (Duration_value (time_Since now (last ck)))] st)
    as (Str & HStr & Hrun); [done..|].
  exists Str. split; [done|].
  unfold bind at 1. by rewrite Hrun.
Qed.

(** ** Where the caller location points *)

(** With caller tracing on, [logfmt] renders the frame it asks
    [runtime.Caller] for. *)
Lemma logfmt_with_caller stack level log st Tag file line :
  Caller_spec → TraceCaller st = true → tag_of st level = Some Tag →
  0 ≤ int_add 3 (offset st) →
  ((slogan_go, 431) :: stack) !! Z.to_nat (int_add 3 (offset st)) = Some (file, line) →
  logfmt stack level log st = Some (line_with_caller level Tag log file line st).
Proof.
  intros Hspec Htc HTag Hskip Hframe. unfold logfmt. rewrite HTag. simpl.
  rewrite (Hspec _ _ _ Hskip Hframe).
  by rewrite (bool_decide_eq_true_2 _ Htc).
Qed.

(** X11.  With caller tracing on and the offset at rest, the line a severity
    function writes names the place the function was called from: the three
    frames [logfmt] skips are its own, the one of [Log] and the one of the
    severity function. *)
Theorem severity_functions_name_caller f level stack log st file line :
  (f, level) ∈ severity_functions →
  Caller_spec → offset st = 0 → TraceCaller st = true →
  Log_renders level log st = true →
  ∃ Tag more,
    tag_of st level = Some Tag ∧
    written (final (f ((file, line) :: stack) log st))
    = written st ++ (logger st, line_with_caller level Tag log file line st) :: more.
Proof.
  intros Hf Hspec Ho Htc Hr.
  assert (Hlog : ∀ site, 0 ≤ level ≤ 8 →
    ∃ Tag more,
      tag_of st level = Some Tag ∧
      written (final (Log (site :: (file, line) :: stack) level log st))
      = written st ++ (logger st, line_with_caller level Tag log file line st) :: more).
  { intros site Hl.
    destruct (tag_of_in_range st level) as [Tag HTag]; [lia|].
    destruct (Log_emit_in_range (site :: (file, line) :: stack) level log st)
      as (Str & HStr & Hemit); [lia|].
    rewrite (logfmt_with_caller _ _ _ _ Tag file line) in HStr;
      [|done|done|done|by rewrite Ho|by rewrite Ho].
    injection HStr as <-.
    exists Tag. rewrite Log_closed_form, Hemit.
    unfold Log_renders in Hr. rewrite Hr.
    destruct (Log_fatal level st); simpl.
    - exists (fatal_lines (site :: (file, line) :: stack) level st).
      split; [done|]. by rewrite <- app_assoc.
    - by exists []. }
  unfold severity_functions in Hf.
  repeat (apply elem_of_cons in Hf as [[= -> ->]|Hf]; [by apply Hlog|]).
  by apply elem_of_nil in Hf.
Qed.

(** X12.  When a severity function ends the process under verbosity 8 or
    more, caller tracing on and the offset at rest, the sink gets two lines
    and both name the place the function was called from: the two
    increments of the offset make up for the frames of [Debug] and of the
    exiting [Log]. *)
Theorem fatal_line_names_caller f level stack log st file line :
  (f, level) ∈ severity_functions →
  Caller_spec → offset st = 0 → TraceCaller st = true →
  Log_fatal level st = true → Verbosity st >= Ldebug → NoEmpty st = false →
  ∃ Tag,
    tag_of st level = Some Tag ∧
    written (final (f ((file, line) :: stack) log st))
    = written st
      ++ [(logger st, line_with_caller level Tag log file line st);
          (logger st,
           line_with_caller Ldebug (tags st !!! 8%fin)
             (fmt_Sprintf (format_of st "fatal") [VInt level]) file line st)].
Proof.
  intros Hf Hspec Ho Htc Hfatal Hv Hne.
  assert (Hlog : ∀ site, 0 ≤ level ≤ 8 →
    ∃ Tag,
      tag_of st level = Some Tag ∧
      written (final (Log (site :: (file, line) :: stack) level log st))
      = written st
        ++ [(logger st, line_with_caller level Tag log file line st);
            (logger st,
             line_with_caller Ldebug (tags st !!! 8%fin)
               (fmt_Sprintf (format_of st "fatal") [VInt level]) file line st)]).
  { intros site Hl.
    destruct (tag_of_in_range st level) as [Tag HTag]; [lia|].
    destruct (Log_emit_in_range (site :: (file, line) :: stack) level log st)
      as (Str & HStr & Hemit); [lia|].
    rewrite (logfmt_with_caller _ _ _ _ Tag file line) in HStr;
      [|done|done|done|by rewrite Ho|by rewrite Ho].
    injection HStr as <-.
    exists Tag. split; [done|].
    rewrite Log_closed_form, Hemit, Hfatal, Hne.
    apply Log_fatal_level in Hfatal.
    rewrite bool_decide_eq_true_2 by (unfold Ldebug, Lwarning in *; lia).
    simpl. rewrite <- app_assoc. do 2 f_equal.
    unfold fatal_lines. rewrite Hne.
    rewrite (bool_decide_eq_true_2 _ Hv). simpl.
    rewrite (logfmt_with_caller _ _ _ _ (tags st !!! 8%fin) file line);
      [done|done|done| | |].
    - unfold tag_of, Ldebug. simpl.
      exact (proj1 (vlookup_lookup (tags st) 8%fin _) eq_refl).
    - simpl. by rewrite Ho.
    - simpl. by rewrite Ho. }
  unfold severity_functions in Hf.
  repeat (apply elem_of_cons in Hf as [[= -> ->]|Hf]; [by apply Hlog|]).
  by apply elem_of_nil in Hf.
Qed.

(** X13.  [Log] called directly does not name the place it was called from
    but the caller of that place: [logfmt] always skips a frame for a
    severity function, also when there is none. *)
Theorem Log_names_callers_caller stack level log st site file line :
  Caller_spec → offset st = 0 → TraceCaller st = true →
  0 ≤ level ≤ 9 → Log_renders level log st = true →
  ∃ Tag more,
    tag_of st level = Some Tag ∧
    written (final (Log (site :: (file, line) :: stack) level log st))
    = written st ++ (logger st, line_with_caller level Tag log file line st) :: more.
Proof.
  intros Hspec Ho Htc Hl Hr.
  destruct (tag_of_in_range st level) as [Tag HTag]; [lia|].
  destruct (Log_emit_in_range (site :: (file, line) :: stack) level log st)
    as (Str & HStr & Hemit); [lia|].
  rewrite (logfmt_with_caller _ _ _ _ Tag file line) in HStr;
    [|done|done|done|by rewrite Ho|by rewrite Ho].
  injection HStr as <-.
  exists Tag. rewrite Log_closed_form, Hemit.
  unfold Log_renders in Hr. rewrite Hr.
  destruct (Log_fatal level st); simpl.
  - exists (fatal_lines (site :: (file, line) :: stack) level st).
    split; [done|]. by rewrite <- app_assoc.
  - by exists [].
Qed.

(** X14.  [Trace] names the place it was called from.  [TraceCall] does
    not: the frame it adds is not made up for, so under verbosity 9 the one
    line it writes names line 374 of [slogan.go], its own call of [Trace],
    wherever [TraceCall] was called from. *)
Theorem TraceCall_names_itself stack (trace : value Any) st file line :
  Caller_spec → offset st = 0 →
  let name := if bool_decide (fmt_Sprintf "%v" [trace] = "[]")
              then "empty" else "trace" in
  let msg := fmt_Sprintf (format_of st name) [trace] in
  Log_renders Ltrace msg st = true →
  (TraceCaller st = true →
   written (final (Trace ((file, line) :: stack) trace st))
   = written st
     ++ [(logger st, line_with_caller Ltrace (tags st !!! 9%fin) msg file line st)]) ∧
  written (final (TraceCall ((file, line) :: stack) trace st))
  = written st
    ++ [(logger st,
         line_with_caller Ltrace (tags st !!! 9%fin) msg slogan_go 374
           (set_TraceCaller true st))].
Proof.
  intros Hspec Ho. simpl. intros Hr.
  assert (Htrace : ∀ stk s,
    ∃ Str,
      logfmt ((slogan_go, 405)
              :: (if bool_decide (fmt_Sprintf "%v" [trace] = "[]")
                  then (slogan_go, 362) else (slogan_go, 364)) :: stk) Ltrace
        (fmt_Sprintf
           (format_of s (if bool_decide (fmt_Sprintf "%v" [trace] = "[]")
                         then "empty" else "trace")) [trace]) s = Some Str ∧
      Trace stk trace s
      = Returned tt
          (if Log_renders Ltrace
                (fmt_Sprintf
                   (format_of s (if bool_decide (fmt_Sprintf "%v" [trace] = "[]")
                                 then "empty" else "trace")) [trace]) s
           then set_written (written s ++ [(logger s, Str)]) s
           else s)).
  { intros stk s. unfold Trace. case_bool_decide; unfold bind, read.
    all: by apply Log_returns. }
  assert (HTag : ∀ st', tags st' = tags st → tag_of st' Ltrace = Some (tags st !!! 9%fin)).
  { intros st' Ht. unfold tag_of, Ltrace. simpl. rewrite Ht.
    exact (proj1 (vlookup_lookup (tags st) 9%fin _) eq_refl). }
  split.
  - intros Htc.
    destruct (Htrace ((file, line) :: stack) st) as (Str & HStr & ->).
    simpl in HStr.
    rewrite (logfmt_with_caller _ _ _ _ (tags st !!! 9%fin) file line) in HStr;
      [|done|done|by apply HTag|by rewrite Ho|by case_bool_decide; rewrite Ho].
    injection HStr as <-. by rewrite Hr.
  - destruct (Htrace ((slogan_go, 374) :: (file, line) :: stack)
                (set_TraceCaller true st)) as (Str & HStr & HTrace).
    simpl in HStr, HTrace.
    change (format_of (set_TraceCaller true st)) with (format_of st) in *.
    rewrite (logfmt_with_caller _ _ _ _ (tags st !!! 9%fin) slogan_go 374) in HStr;
      [|done|done|by apply HTag|by simpl; rewrite Ho
       |by case_bool_decide; simpl; rewrite Ho].
    injection HStr as <-.
    unfold TraceCall, bind, assign, defer. rewrite HTrace.
    change (Log_renders Ltrace ?m (set_TraceCaller true st))
      with (Log_renders Ltrace m st).
    by rewrite Hr.
Qed.

(** X15.  With caller tracing on and the offset at rest, the line of
    [Runtime], [AllDone] or [ElapsedTime] names the place that function was
    called from: the one increment of the offset makes up for its frame. *)
Theorem helpers_name_caller now later stack (ck : Clocks) st file line :
  Caller_spec → offset st = 0 → TraceCaller st = true →
  let line_of level msg :=
    if Log_renders level msg st
    then [(logger st,
           line_with_caller level (default "" (tag_of st level)) msg file line st)]
    else [] in
  written (final (Runtime ((file, line) :: stack) st))
  = written st
    ++ line_of Ldebug
         (fmt_Sprintf (format_of st "runtime")
            [VString runtime_GOOS; VString runtime_GOARCH; VInt runtime_NumCPU;
             VString runtime_Compiler; VString runtime_GOROOT]) ∧
  written (final (AllDone now later ((file, line) :: stack) ck st))
  = written st
    ++ line_of Lnotice
         (fmt_Sprintf (format_of st "alldone")
            [VAny (Duration_value (time_Since now (start ck)))]) ∧
  written (final (ElapsedTime now later ((file, line) :: stack) ck st))
  = written st
    ++ line_of Lnotice
         (fmt_Sprintf (format_of st "elapsed")
            [VAny (Duration_value (time_Since now (last ck)))]).
Proof.
  intros Hspec Ho Htc. simpl.
  assert (Hi : is_int (offset st)) by (rewrite Ho; unfold is_int; lia).
  assert (Hone : ∀ site fn level name args, 0 ≤ level ≤ 9 → Log_fatal level st = false →
    written (final ((incr_offset ;;
       defer decr_offset (
         let* fmt := read (fun st => format_of st name) in
         Log (site :: fn :: (file, line) :: stack) level (fmt_Sprintf fmt args))) st))
    = written st
      ++ (if Log_renders level (fmt_Sprintf (format_of st name) args) st
          then [(logger st,
                 line_with_caller level (default "" (tag_of st level))
                   (fmt_Sprintf (format_of st name) args) file line st)]
          else [])).
  { intros site fn level name args Hl Hf.
    destruct (Log_one_deeper (site :: fn :: (file, line) :: stack) level name args st)
      as (Str & HStr & ->); [done..|].
    destruct (tag_of_in_range st level Hl) as [Tag HTag].
    rewrite (logfmt_with_caller _ _ _ _ Tag file line) in HStr;
      [|done|done|done|by simpl; rewrite Ho|by simpl; rewrite Ho].
    injection HStr as <-. rewrite HTag. simpl.
    destruct (Log_renders _ _ _); simpl; [done|by rewrite app_nil_r]. }
  split; [|split].
  - unfold Runtime, Debug. by apply Hone.
  - unfold AllDone, Notice. unfold bind at 1.
    pose proof (Hone (slogan_go, 345) (slogan_go, 225) Lnotice "alldone"
                  [VAny (Duration_value (time_Since now (start ck)))]) as Hw.
    destruct ((incr_offset ;; _) st) eqn:Hrun; simpl in *; by apply Hw.
  - unfold ElapsedTime, Notice. unfold bind at 1.
    pose proof (Hone (slogan_go, 345) (slogan_go, 234) Lnotice "elapsed"
                  [VAny (Duration_value (time_Since now (last ck)))]) as Hw.
    destruct ((incr_offset ;; _) st) eqn:Hrun; simpl in *; by apply Hw.
Qed.

(** ** Colors and the output *)

(** X16.  [colorize] applies the style of the level, and nothing else, when
    the destination is a terminal or force-colorize is set, colorize is on,
    the part is enabled and the style is one [setcolor] knows.  The style of
    slot 10 is the one of caller locations. *)
Theorem colorize_applies what level str st :
  isTerminal st = true ∨ ForceColorize st = true →
  Colorize st = true → part_of st what = true →
  color_of st level ∈ color_names →
  colorize what level str st = color_fn (color_of st level) str.
Proof.
  intros Hterm Hc Hp Hname. unfold colorize, setcolor.
  rewrite Hc, Hp, (bool_decide_eq_true_2 _ Hname). simpl.
  destruct Hterm as [-> | ->]; simpl; [done|by rewrite andb_false_r].
Qed.

(** Every line of a [Log] call is recorded with the logger of the state the
    call started in. *)
Lemma Log_lines_logger stack level log st :
  ∃ strs : list string,
    written (final (Log stack level log st))
    = written st ++ (pair (logger st) <$> strs).
Proof.
  assert (Hfl : ∃ strs : list string,
            fatal_lines stack level st = pair (logger st) <$> strs).
  { unfold fatal_lines. repeat case_match; first [by exists []|by eexists [_]]. }
  destruct Hfl as [fstrs Hfl].
  rewrite Log_closed_form. unfold Log_emit, logger_Println, assign, panic, ret.
  destruct (bool_decide (Verbosity st >= level));
    [destruct (bool_decide (NoEmpty st = true)
               && bool_decide (String.length log = 0%nat)); simpl;
     [|destruct (logfmt _ level log st) as [Str|]]|];
    try destruct (Log_fatal level st); simpl; rewrite ?Hfl.
  all: first [ by exists []; rewrite app_nil_r
             | by exists fstrs
             | by exists [Str]
             | by exists (Str :: fstrs); rewrite <- app_assoc ].
Qed.

(** X17.  After [SetOutput], whatever the writer, nothing is colorized
    unless force-colorize is set: [colorize] is the identity, also when the
    writer is standard error or standard output and it is a terminal. *)
Theorem SetOutput_turns_colors_off w what level str st :
  ForceColorize st = false →
  colorize what level str (final (SetOutput w st)) = str.
Proof.
  intros Hf.
  assert (Hterm : isTerminal (final (SetOutput w st)) = false).
  { unfold SetOutput, bind, assign, ret. by destruct w. }
  assert (Hforce : ForceColorize (final (SetOutput w st)) = false).
  { unfold SetOutput, bind, assign, ret. by destruct w. }
  unfold colorize. by rewrite Hterm, Hforce.
Qed.

(** X18.  After [SetOutput(w)] the logger writes to [w] and keeps its prefix
    and flags; every line a following [Log] call writes goes to [w]. *)
Theorem SetOutput_redirects w stack level log st :
  logger (final (SetOutput w st))
  = mkLogger w (logger_prefix (logger st)) (logger_flags (logger st)) ∧
  written (final (SetOutput w st)) = written st ∧
  ∃ strs : list string,
    written (final (Log stack level log (final (SetOutput w st))))
    = written st
      ++ (pair (mkLogger w (logger_prefix (logger st)) (logger_flags (logger st)))
            <$> strs).
Proof.
  assert (Hlg : logger (final (SetOutput w st))
    = mkLogger w (logger_prefix (logger st)) (logger_flags (logger st))).
  { unfold SetOutput, bind, assign, ret. by destruct w. }
  assert (Hwr : written (final (SetOutput w st)) = written st).
  { unfold SetOutput, bind, assign, ret. by destruct w. }
  split; [done|]. split; [done|].
  destruct (Log_lines_logger stack level log (final (SetOutput w st))) as [strs Hs].
  exists strs. by rewrite Hs, Hlg, Hwr.
Qed.

(** ** The prefix *)

(** X19.  [SetPrefix p] returns the former content of slot 0 of the tag
    table, the next [SetPrefix] returns [p]; after [SetPrefix p] slot 0 of the
    table and the logger's prefix both hold [p], the tags of levels 1 to 9 are
    what they were, and the logger keeps its output and flags. *)
Theorem SetPrefix_round_trip (p q : string) st :
  (let* a := SetPrefix p in let* b := SetPrefix q in ret (a, b)) st
  = Returned (tags st !!! 0%fin, p) (final (SetPrefix q (final (SetPrefix p st)))) ∧
  tag_of (final (SetPrefix p st)) 0 = Some p ∧
  logger (final (SetPrefix p st))
  = mkLogger (logger_out (logger st)) p (logger_flags (logger st)) ∧
  ∀ level, 1 ≤ level ≤ 9 →
    tag_of (final (SetPrefix p st)) level = tag_of st level.
Proof.
  assert (Hset : ∀ r st', SetPrefix r st'
    = Returned (tags st' !!! 0%fin) (logger_SetPrefix r (store_prefix r st'))).
  { done. }
  assert (Htags : ∀ r st',
    tags (logger_SetPrefix r (store_prefix r st')) = vinsert 0%fin r (tags st')).
  { done. }
  unfold bind. rewrite !Hset. unfold final, ret, tag_of. rewrite !Htags.
  split; [|split; [|split]].
  - do 2 f_equal. apply vlookup_insert.
  - case_decide; [|lia]. rewrite vec_to_list_insert.
    apply list_lookup_insert_eq. rewrite length_vec_to_list. simpl. lia.
  - reflexivity.
  - intros level Hl. repeat case_decide; try lia. rewrite vec_to_list_insert.
    apply list_lookup_insert_ne. simpl. lia.
Qed.

(** ** What the output does not depend on *)

(** Two calls of [Log] whose gates, exit settings, sink and renderings agree
    end the same way and leave the same lines. *)
Lemma Log_congruence stack stack' level log st st' :
  Verbosity st' = Verbosity st → NoEmpty st' = NoEmpty st →
  ExitOnError st' = ExitOnError st → WarningAsError st' = WarningAsError st →
  written st' = written st → logger st' = logger st → formats st' = formats st →
  logfmt ((slogan_go, 405) :: stack') level log st'
  = logfmt ((slogan_go, 405) :: stack) level log st →
  (∀ msg,
     logfmt ((slogan_go, 405) :: (slogan_go, 355) :: (slogan_go, 414) :: stack')
       Ldebug msg (at_exit st')
     = logfmt ((slogan_go, 405) :: (slogan_go, 355) :: (slogan_go, 414) :: stack)
         Ldebug msg (at_exit st)) →
  status_of (Log stack' level log st') = status_of (Log stack level log st) ∧
  written (final (Log stack' level log st'))
  = written (final (Log stack level log st)).
Proof.
  intros Hv Hn He Hw Hwr Hlg Hfm Hfmt Hfatal.
  assert (Hfl : fatal_lines stack' level st' = fatal_lines stack level st).
  { unfold fatal_lines, format_of. by rewrite Hv, Hn, Hfm, Hfatal, Hlg. }
  assert (Hf : Log_fatal level st' = Log_fatal level st).
  { unfold Log_fatal. by rewrite He, Hw. }
  rewrite !Log_closed_form, Hfl, Hf.
  unfold Log_emit, logger_Println, assign, panic, ret. rewrite Hv, Hn, Hfmt.
  destruct (bool_decide (Verbosity st >= level));
    [destruct (bool_decide (NoEmpty st = true)
               && bool_decide (String.length log = 0%nat)); simpl;
     [|destruct (logfmt _ level log st) as [Str|]]|];
    try destruct (Log_fatal level st); simpl; by rewrite ?Hwr, ?Hlg.
Qed.

Lemma logfmt_without_caller stack stack' level log st o b :
  TraceCaller st = false →
  logfmt stack' level log (set_offset o (set_CallerBase b st))
  = logfmt stack level log st.
Proof.
  intros Htc. unfold logfmt.
  change (tag_of (set_offset o (set_CallerBase b st)) level) with (tag_of st level).
  destruct (tag_of st level) as [Tag|]; [simpl|done].
  destruct (runtime_Caller _ _), (runtime_Caller _ _).
  by rewrite Htc.
Qed.

(** X20.  With caller tracing off, what a [Log] call writes and how it ends
    depend neither on where the call comes from, nor on the offset, nor on
    the caller-base mode. *)
Theorem Log_ignores_call_site stack stack' level log st o b :
  TraceCaller st = false →
  status_of (Log stack' level log (set_offset o (set_CallerBase b st)))
  = status_of (Log stack level log st) ∧
  written (final (Log stack' level log (set_offset o (set_CallerBase b st))))
  = written (final (Log stack level log st)).
Proof.
  intros Htc. apply Log_congruence; try done.
  - by apply logfmt_without_caller.
  - intros msg. by apply (logfmt_without_caller _ _ _ _ (at_exit st)).
Qed.

Lemma logfmt_without_colors stack level log st c (p : gmap string bool) b :
  isTerminal st = false → ForceColorize st = false →
  logfmt stack level log (set_colors c (set_parts p (set_Colorize b st)))
  = logfmt stack level log st.
Proof.
  intros Ht Hf.
  assert (Hc : ∀ what lv str,
    colorize what lv str (set_colors c (set_parts p (set_Colorize b st)))
    = colorize what lv str st).
  { intros. unfold colorize. simpl. by rewrite Ht, Hf. }
  unfold logfmt.
  change (tag_of (set_colors c (set_parts p (set_Colorize b st))) level)
    with (tag_of st level).
  destruct (tag_of st level) as [Tag|]; [simpl|done].
  destruct (runtime_Caller _ _). by rewrite !Hc.
Qed.

(** X21.  When the destination is not a terminal and force-colorize is off,
    the color table, the parts table and the colorize switch have no effect
    on what a [Log] call writes or on how it ends. *)
Theorem Log_ignores_colors_off_terminal stack level log st c
    (p : gmap string bool) b :
  isTerminal st = false → ForceColorize st = false →
  status_of (Log stack level log (set_colors c (set_parts p (set_Colorize b st))))
  = status_of (Log stack level log st) ∧
  written (final (Log stack level log (set_colors c (set_parts p (set_Colorize b st)))))
  = written (final (Log stack level log st)).
Proof.
  intros Ht Hf. apply Log_congruence; try done.
  - by apply logfmt_without_colors.
  - intros msg. by apply (logfmt_without_colors _ _ _ (at_exit st)).
Qed.

(** X22.  Raising the verbosity never loses a line: whatever a [Log] call
    writes under one verbosity it also writes, rendered the same, under any
    higher one. *)
Theorem Log_verbosity_monotone stack level log st V' :
  Verbosity st ≤ V' →
  ∀ ev, ev ∈ written (final (Log stack level log st)) →
        ev ∈ written (final (Log stack level log (set_Verbosity V' st))).
Proof.
  intros HV ev.
  destruct (decide (Verbosity st >= level)) as [Hg|Hg].
  - rewrite !Log_closed_form.
    unfold Log_emit, fatal_lines, logger_Println, assign, panic, ret.
    change (logfmt ?s ?l ?m (set_Verbosity V' st)) with (logfmt s l m st).
    change (logfmt ?s ?l ?m (at_exit (set_Verbosity V' st)))
      with (logfmt s l m (at_exit st)).
    change (Log_fatal level (set_Verbosity V' st)) with (Log_fatal level st).
    change (format_of (set_Verbosity V' st)) with (format_of st).
    change (NoEmpty (set_Verbosity V' st)) with (NoEmpty st).
    change (Verbosity (set_Verbosity V' st)) with V'.
    rewrite (bool_decide_eq_true_2 _ Hg).
    rewrite (bool_decide_eq_true_2 (V' >= level)) by lia.
    assert (Hd : bool_decide (Verbosity st >= Ldebug) = true →
                 bool_decide (V' >= Ldebug) = true).
    { intros Hd. apply bool_decide_eq_true_1 in Hd.
      apply bool_decide_eq_true_2. lia. }
    destruct (bool_decide (Verbosity st >= Ldebug));
      [rewrite Hd by done|destruct (bool_decide (V' >= Ldebug))]; cbn [andb].
    all: destruct (bool_decide (NoEmpty st = true)
                   && bool_decide (String.length log = 0%nat)); simpl;
      [|destruct (logfmt _ level log st) as [Str|]; [|done]].
    all: destruct (Log_fatal level st); simpl; rewrite ?app_nil_r; try done.
    all: repeat (match goal with
                 | |- context [if ?b then _ else _] => destruct b
                 | |- context [match ?o with Some _ => _ | None => _ end] =>
                     destruct o
                 end; simpl); rewrite ?elem_of_app; tauto.
  - assert (Hquiet : written (final (Log stack level log st)) = written st).
    { rewrite Log_closed_form, Log_emit_skip by (by left).
      destruct (Log_fatal level st) eqn:Hf; [|done]. simpl.
      apply Log_fatal_level in Hf. rewrite fatal_lines_quiet.
      - apply app_nil_r.
      - unfold Ldebug, Lwarning in *. lia. }
    rewrite Hquiet.
    destruct (Log_lines_logger stack level log (set_Verbosity V' st)) as [strs ->].
    rewrite elem_of_app. tauto.
Qed.

(** ** [SetFlags], then a log *)

(** X24.  After [SetFlags] with [Lshortfile] or [Llongfile] in the flags,
    the line a severity function writes carries the place it was called
    from: the full path of the file if [Llongfile] was given, its base name
    otherwise. *)
Theorem SetFlags_then_log_names_caller flag f level stack log st file line :
  is_int flag →
  Z.land flag Lshortfile = Lshortfile ∨ Z.land flag Llongfile = Llongfile →
  (f, level) ∈ severity_functions →
  Caller_spec → offset st = 0 → Log_renders level log st = true →
  ∃ Tag more,
    tag_of st level = Some Tag ∧
    written (final (f ((file, line) :: stack) log (final (SetFlags flag st))))
    = written st
      ++ (logger (final (SetFlags flag st)),
          fmt_Sprintf (format_of st "caller")
            [VString (colorize "tag" level Tag st);
             VString (colorize "log" level log st);
             VString
               (colorize "caller" 10
                  (fmt_Sprintf (format_of st "where")
                     [VString (if bool_decide (Z.land flag Llongfile = Llongfile)
                               then file else path_Base file);
                      VInt line]) st)]) :: more.
Proof.
  intros Hi Hflags Hf Hspec Ho Hr.
  rewrite SetFlags_closed_form by done. unfold final at 2 3.
  assert (Hbits : Z.testbit flag 4 || Z.testbit flag 3 = true).
  { change Lshortfile with (2 ^ 4) in Hflags. change Llongfile with (2 ^ 3) in Hflags.
    rewrite !land_pow2_testbit in Hflags by lia.
    destruct Hflags as [-> | ->]; [done|by rewrite orb_true_r]. }
  rewrite Hbits.
  assert (Hlong : bool_decide (Z.land flag Llongfile = Llongfile) = Z.testbit flag 3).
  { change Llongfile with (2 ^ 3).
    destruct (Z.testbit flag 3) eqn:H3.
    - apply bool_decide_eq_true_2. by apply land_pow2_testbit.
    - apply bool_decide_eq_false_2. rewrite land_pow2_testbit by lia. congruence. }
  rewrite Hlong.
  set (st' := logger_SetFlags _ _).
  assert (Hlog : ∀ site, 0 ≤ level ≤ 8 →
    ∃ Tag more,
      tag_of st level = Some Tag ∧
      written (final (Log (site :: (file, line) :: stack) level log st'))
      = written st
        ++ (logger st',
            fmt_Sprintf (format_of st "caller")
              [VString (colorize "tag" level Tag st);
               VString (colorize "log" level log st);
               VString
                 (colorize "caller" 10
                    (fmt_Sprintf (format_of st "where")
                       [VString (if Z.testbit flag 3 then file else path_Base file);
                        VInt line]) st)]) :: more).
  { intros site Hl.
    destruct (tag_of_in_range st level) as [Tag HTag]; [lia|].
    destruct (Log_emit_in_range (site :: (file, line) :: stack) level log st')
      as (Str & HStr & Hemit); [lia|].
    rewrite (logfmt_with_caller _ _ _ _ Tag file line) in HStr;
      [|done|done|done|by subst st'; simpl; rewrite Ho
       |by subst st'; simpl; rewrite Ho].
    injection HStr as <-.
    exists Tag. rewrite Log_closed_form, Hemit.
    change (Verbosity st') with (Verbosity st).
    change (NoEmpty st') with (NoEmpty st).
    unfold Log_renders in Hr. rewrite Hr.
    assert (Hline : line_with_caller level Tag log file line st'
      = fmt_Sprintf (format_of st "caller")
          [VString (colorize "tag" level Tag st);
           VString (colorize "log" level log st);
           VString
             (colorize "caller" 10
                (fmt_Sprintf (format_of st "where")
                   [VString (if Z.testbit flag 3 then file else path_Base file);
                    VInt line]) st)]).
    { unfold line_with_caller, st'. by destruct (Z.testbit flag 3). }
    rewrite Hline.
    destruct (Log_fatal level st'); simpl.
    - eexists. split; [done|]. by rewrite <- app_assoc.
    - by exists []. }
  unfold severity_functions in Hf.
  repeat (apply elem_of_cons in Hf as [[= -> ->]|Hf]; [by apply Hlog|]).
  by apply elem_of_nil in Hf.
Qed.

(** ** The offset *)

(** X23.  An increment of the offset followed by a decrement gives back the
    state, for every offset a Go [int] can hold, the largest included: the
    two wrap-arounds cancel. *)
Theorem offset_round_trip st :
  is_int (offset st) → decr_offset (final (incr_offset st)) = st.
Proof.
  intros Hi. unfold incr_offset, assign, decr_offset. simpl.
  rewrite int_sub_add_1 by done. by destruct st.
Qed.

End more_properties.

(** * Runs of the model in the concrete environment *)

Section runs.
#[local] Existing Instance demo.

(** The README's run, not on a terminal: the lines it shows, then exit
    status 4 at the error. *)
Example README_output :
  status_of (README_main (initial false)) = exits 4 ∧
  (snd <$> written (final (README_main (initial false)))) =
  [ "   debug     A debug message";
    "   info      An informative message";
    "   notice    A notification";
    "   warning   A warning";
    "   error     An Error";
    "   debug     Immediate exit with code 4" ].
Proof. split; vm_compute; reflexivity. Qed.

(** With caller tracing on, the [fatal] line names the caller of [Error]:
    the two extra increments of the offset skip [Debug] and [Log]. *)
Example fatal_line_caller :
  (snd <$> written (final (Error [("main.go", 20)] "An Error"
                      (set_TraceCaller true (set_Verbosity 9
                         (set_ExitOnError true (initial false)))))))
  = [ "   error     main.go:20" +:+ TAB +:+ " An Error";
      "   debug     main.go:20" +:+ TAB +:+ " Immediate exit with code 4" ].
Proof. vm_compute; reflexivity. Qed.

(** C1 at work: a debug message under verbosity 9. *)
Lemma Log_emits_iff_verbose_witness :
  0 ≤ Ldebug ≤ 9 ∧ NoEmpty demo_verbose = false ∧
  ∃ Str,
    logfmt ((slogan_go, 405) :: demo_stack) Ldebug "A debug message" demo_verbose
    = Some Str ∧
    ((∃ more, written (final (Log demo_stack Ldebug "A debug message" demo_verbose))
              = written demo_verbose ++ (logger demo_verbose, Str) :: more)
     ↔ Verbosity demo_verbose >= Ldebug) ∧
    (¬ (Verbosity demo_verbose >= Ldebug) →
     written (final (Log demo_stack Ldebug "A debug message" demo_verbose))
     = written demo_verbose).
Proof.
  split; [unfold Ldebug; lia|]. split; [reflexivity|].
  apply Log_emits_iff_verbose; [unfold Ldebug; lia|reflexivity].
Defined.

(** C2 as stated fails: under the default verbosity 5 an error message ends
    the process with status 4, and the sink holds the error line only; the
    [fatal] line was gated out like any other debug message. *)
Lemma Log_exits_without_fatal_line :
  status_of (Log demo_stack Lerror "An Error" demo_exit_on_error) = exits 4 ∧
  written (final (Log demo_stack Lerror "An Error" demo_exit_on_error))
  = [(mkLogger os_Stderr "" 0, "   <LightRed>error    </> An Error")].
Proof. split; vm_compute; reflexivity. Defined.

(** C2 as amended, at levels 4, 5 and 7 with exit-on-error set. *)
Lemma Log_exit_policy_witness :
  ExitOnError demo_verbose = true ∧ WarningAsError demo_verbose = false ∧
  status_of (Log demo_stack 4 "An Error" demo_verbose) = exits 4 ∧
  status_of (Log demo_stack 5 "A warning" demo_verbose) = returns ∧
  status_of (Log demo_stack 7 "An informative message" demo_verbose) = returns ∧
  status_of (Log demo_stack 5 "A warning" (set_WarningAsError true demo_verbose))
  = exits 5.
Proof.
  split; [reflexivity|]. split; [reflexivity|].
  split; [|split; [|split]].
  - destruct (Log_exit_policy demo_stack 4 "An Error" demo_verbose)
      as (Hexit & _).
    apply Hexit; [reflexivity|lia].
  - destruct (Log_exit_policy demo_stack 5 "A warning" demo_verbose)
      as (_ & Hwarn & _).
    apply Hwarn; reflexivity.
  - destruct (Log_exit_policy demo_stack 7 "An informative message" demo_verbose)
      as (_ & _ & Hquiet & _).
    apply Hquiet. lia.
  - destruct (Log_exit_policy demo_stack 5 "A warning"
                (set_WarningAsError true demo_verbose))
      as (_ & _ & _ & Hwarn & _).
    apply Hwarn; reflexivity.
Defined.

(** C3: [Silent] under exit-on-error. *)
Lemma Silent_exits_with_status_0_witness :
  ExitOnError demo_exit_on_error = true ∧
  status_of (Silent demo_stack "kept for later" demo_exit_on_error) = exits 0.
Proof. split; [reflexivity|]. by apply Silent_exits_with_status_0. Defined.



(** C5 at work: on a terminal with the default tables the tag of an error is
    colorized, and each of the conditions undoes that. *)
Lemma colorize_passthrough_witness :
  colorize "tag" Lerror "error    " (initial true) = "<LightRed>error    </>" ∧
  (isTerminal (initial false) = false ∧ ForceColorize (initial false) = false) ∧
  colorize "tag" Lerror "error    " (initial false) = "error    " ∧
  Colorize (set_Colorize false (initial true)) = false ∧
  colorize "tag" Lerror "error    " (set_Colorize false (initial true))
  = "error    " ∧
  part_of (initial true) "log" = false ∧
  colorize "log" Lerror "An Error" (initial true) = "An Error" ∧
  color_of (initial true) Lsilent = "" ∧
  colorize "tag" Lsilent "===> " (initial true) = "===> " ∧
  (color_of demo_pink Lerror ∉ color_names) ∧
  colorize "tag" Lerror "error    " demo_pink = "error    ".
Proof.
  split; [reflexivity|]. split; [split; reflexivity|].
  split; [apply colorize_passthrough; left; split; reflexivity|].
  split; [reflexivity|].
  split; [apply colorize_passthrough; right; left; reflexivity|].
  split; [reflexivity|].
  split; [apply colorize_passthrough; right; right; left; reflexivity|].
  split; [reflexivity|].
  split; [apply colorize_passthrough; right; right; right; left; reflexivity|].
  assert (Hpink : color_of demo_pink Lerror ∉ color_names).
  { apply (bool_decide_eq_false_1 (_ ∈ _)). reflexivity. }
  split; [exact Hpink|].
  apply colorize_passthrough. right; right; right; right. exact Hpink.
Defined.

(** C7: redirecting to standard error, from a state in which standard error
    was found to be a terminal, clears the flag. *)
Lemma SetOutput_Stderr_clears_isTerminal :
  isTerminal (initial true) = true ∧
  isTerminal (final (SetOutput os_Stderr (initial true))) = false ∧
  isTerminal (final (SetOutput os_Stdout (initial true))) = false.
Proof. repeat split. Defined.

(** C8: caller tracing was on before [TraceCall] and is off after it. *)
Lemma TraceCall_turns_tracing_off :
  TraceCaller demo_tracing = true ∧
  status_of (TraceCall demo_stack (VInt 3) demo_tracing) = returns ∧
  TraceCaller (final (TraceCall demo_stack (VInt 3) demo_tracing)) = false.
Proof. repeat split. Defined.

(** C9 at work: level 9 is in bounds; [Log(10, msg)] under verbosity 10 and
    [Log(-1, msg)] under the default verbosity panic. *)
Lemma Log_panics_out_of_range_witness :
  (0 ≤ 9 ≤ 9 ∧
   is_Some (tag_of (initial true) 9) ∧
   status_of (Log demo_stack 9 "msg" (initial true)) ≠ panics) ∧
  (¬ (0 ≤ 10 ≤ 9) ∧ Verbosity (set_Verbosity 10 (initial true)) >= 10 ∧
   tag_of (set_Verbosity 10 (initial true)) 10 = None ∧
   status_of (Log demo_stack 10 "msg" (set_Verbosity 10 (initial true))) = panics) ∧
  (¬ (0 ≤ -1 ≤ 9) ∧ Verbosity (initial true) >= -1 ∧
   tag_of (initial true) (-1) = None ∧
   status_of (Log demo_stack (-1) "msg" (initial true)) = panics).
Proof.
  split; [split; [lia|]|split; (split; [lia|]; split; [vm_compute; discriminate|])].
  - apply (Log_panics_out_of_range demo_stack 9 "msg" (initial true)). lia.
  - apply (Log_panics_out_of_range demo_stack 10 "msg" (set_Verbosity 10 (initial true)));
      [lia|vm_compute; discriminate|by left].
  - apply (Log_panics_out_of_range demo_stack (-1) "msg" (initial true));
      [lia|vm_compute; discriminate|by left].
Defined.

(** C10 at work: on a terminal, with the part [prefix] switched on. *)
Lemma prefix_part_unobservable_witness :
  same_but_prefix_part demo_verbose
    (set_parts (<["prefix":=true]> default_parts) demo_verbose) ∧
  status_of (Log demo_stack Lerror "An Error"
               (set_parts (<["prefix":=true]> default_parts) demo_verbose))
  = status_of (Log demo_stack Lerror "An Error" demo_verbose) ∧
  written (final (Log demo_stack Lerror "An Error"
                    (set_parts (<["prefix":=true]> default_parts) demo_verbose)))
  = written (final (Log demo_stack Lerror "An Error" demo_verbose)).
Proof.
  assert (Hsame : same_but_prefix_part demo_verbose
            (set_parts (<["prefix":=true]> default_parts) demo_verbose)).
  { exists (<["prefix":=true]> default_parts). split; [reflexivity|].
    intros what Hwhat. by rewrite lookup_insert_ne. }
  split; [exact Hsame|].
  destruct (prefix_part_unobservable demo_stack Lerror "An Error" _ _ Hsame)
    as (_ & Hstatus & Hwritten & _).
  split; [exact Hstatus|exact Hwritten].
Defined.

End runs.

(** * More runs in the concrete environment *)

Section more_runs.
#[local] Existing Instance demo.
#[local] Existing Instance demo_platform.

Lemma demo_Caller_spec : Caller_spec.
Proof.
  intros stack skip fr Hskip Hfr.
  change (runtime_Caller stack skip)
    with (if decide (0 ≤ skip) then default ("", 0) (stack !! Z.to_nat skip)
          else ("", 0)).
  rewrite decide_True by done. unfold frame in *. by rewrite Hfr.
Qed.

(** X1 at work: date, time and both file flags. *)
Lemma SetFlags_logger_flags_witness :
  is_int 27 ∧
  logger (final (SetFlags 27 (initial true)))
  = mkLogger (logger_out (logger (initial true)))
      (logger_prefix (logger (initial true)))
      (Z.ldiff 27 (Z.lor Llongfile Lshortfile)) ∧
  Z.land (logger_flags (logger (final (SetFlags 27 (initial true))))) Lshortfile = 0 ∧
  Z.land (logger_flags (logger (final (SetFlags 27 (initial true))))) Llongfile = 0 ∧
  ∀ n, 0 ≤ n → n ≠ 3 → n ≠ 4 →
    Z.testbit (logger_flags (logger (final (SetFlags 27 (initial true))))) n
    = Z.testbit 27 n.
Proof.
  split; [unfold is_int; lia|].
  apply SetFlags_logger_flags. unfold is_int; lia.
Defined.

(** X2 at work: both file flags, then the short one alone, then none. *)
Lemma SetFlags_caller_modes_witness :
  is_int 24 ∧ Z.land 24 Llongfile = Llongfile ∧
  TraceCaller (final (SetFlags 24 (initial true))) = true ∧
  CallerBase (final (SetFlags 24 (initial true))) = false ∧
  is_int 16 ∧ Z.land 16 Lshortfile = Lshortfile ∧ Z.land 16 Llongfile ≠ Llongfile ∧
  TraceCaller (final (SetFlags 16 (initial true))) = true ∧
  CallerBase (final (SetFlags 16 (initial true))) = true ∧
  is_int 3 ∧ Z.land 3 Lshortfile ≠ Lshortfile ∧ Z.land 3 Llongfile ≠ Llongfile ∧
  TraceCaller (final (SetFlags 3 demo_tracing)) = TraceCaller demo_tracing ∧
  CallerBase (final (SetFlags 3 demo_tracing)) = CallerBase demo_tracing.
Proof.
  assert (H24 : is_int 24) by (unfold is_int; lia).
  assert (H16 : is_int 16) by (unfold is_int; lia).
  assert (H3 : is_int 3) by (unfold is_int; lia).
  split; [exact H24|]. split; [reflexivity|].
  destruct (SetFlags_caller_modes 24 (initial true) H24) as (_ & Hlong & _).
  split; [by apply Hlong|]. split; [by apply Hlong|].
  split; [exact H16|]. split; [reflexivity|]. split; [discriminate|].
  destruct (SetFlags_caller_modes 16 (initial true) H16) as (_ & _ & Hshort & _).
  split; [by apply Hshort|]. split; [by apply Hshort|].
  split; [exact H3|]. split; [discriminate|]. split; [discriminate|].
  destruct (SetFlags_caller_modes 3 demo_tracing H3) as (_ & _ & _ & Hnone).
  split; by apply Hnone.
Defined.


(** X6 at work: [Error] under exit-on-error. *)
Lemma severity_functions_status_witness :
  (Error, Lerror) ∈ severity_functions ∧
  0 ≤ Lerror ≤ 8 ∧
  status_of (Error demo_stack "An Error" demo_exit_on_error)
  = if Log_fatal Lerror demo_exit_on_error then exits Lerror else returns.
Proof.
  assert (Hin : (Error, Lerror) ∈ severity_functions).
  { unfold severity_functions. repeat constructor. }
  split; [exact Hin|]. by apply severity_functions_status.
Defined.

(** X8 at work. *)
Lemma Runtime_writes_one_line_witness :
  is_int (offset demo_verbose) ∧
  ∃ Str,
    logfmt ((slogan_go, 405) :: (slogan_go, 355) :: (slogan_go, 383) :: demo_stack)
      Ldebug
      (fmt_Sprintf (format_of demo_verbose "runtime")
         [VString runtime_GOOS; VString runtime_GOARCH; VInt runtime_NumCPU;
          VString runtime_Compiler; VString runtime_GOROOT])
      (set_offset (int_add (offset demo_verbose) 1) demo_verbose) = Some Str ∧
    Runtime demo_stack demo_verbose
    = Returned tt
        (if Log_renders Ldebug
              (fmt_Sprintf (format_of demo_verbose "runtime")
                 [VString runtime_GOOS; VString runtime_GOARCH;
                  VInt runtime_NumCPU; VString runtime_Compiler;
                  VString runtime_GOROOT]) demo_verbose
         then set_written (written demo_verbose ++ [(logger demo_verbose, Str)])
                demo_verbose
         else demo_verbose).
Proof.
  assert (Hi : is_int (offset demo_verbose)) by (unfold is_int; simpl; lia).
  split; [exact Hi|]. exact (Runtime_writes_one_line demo_stack demo_verbose Hi).
Defined.

(** X9 at work: started at 1, asked at 10, reset at 20. *)
Lemma AllDone_reports_and_resets_witness :
  is_int (offset demo_verbose) ∧
  ∃ Str,
    logfmt ((slogan_go, 405) :: (slogan_go, 345) :: (slogan_go, 225) :: demo_stack)
      Lnotice
      (fmt_Sprintf (format_of demo_verbose "alldone")
         [VAny (Duration_value (time_Since 10 (start (mkClocks 1 5))))])
      (set_offset (int_add (offset demo_verbose) 1) demo_verbose) = Some Str ∧
    AllDone 10 20 demo_stack (mkClocks 1 5) demo_verbose
    = Returned (mkClocks 20 (last (mkClocks 1 5)))
        (if Log_renders Lnotice
              (fmt_Sprintf (format_of demo_verbose "alldone")
                 [VAny (Duration_value (time_Since 10 (start (mkClocks 1 5))))])
              demo_verbose
         then set_written (written demo_verbose ++ [(logger demo_verbose, Str)])
                demo_verbose
         else demo_verbose).
Proof.
  assert (Hi : is_int (offset demo_verbose)) by (unfold is_int; simpl; lia).
  split; [exact Hi|].
  exact (AllDone_reports_and_resets 10 20 demo_stack (mkClocks 1 5) demo_verbose Hi).
Defined.

(** X10 at work. *)
Lemma ElapsedTime_reports_and_resets_witness :
  is_int (offset demo_verbose) ∧
  ∃ Str,
    logfmt ((slogan_go, 405) :: (slogan_go, 345) :: (slogan_go, 234) :: demo_stack)
      Lnotice
      (fmt_Sprintf (format_of demo_verbose "elapsed")
         [VAny (Duration_value (time_Since 10 (last (mkClocks 1 5))))])
      (set_offset (int_add (offset demo_verbose) 1) demo_verbose) = Some Str ∧
    ElapsedTime 10 20 demo_stack (mkClocks 1 5) demo_verbose
    = Returned (mkClocks (start (mkClocks 1 5)) 20)
        (if Log_renders Lnotice
              (fmt_Sprintf (format_of demo_verbose "elapsed")
                 [VAny (Duration_value (time_Since 10 (last (mkClocks 1 5))))])
              demo_verbose
         then set_written (written demo_verbose ++ [(logger demo_verbose, Str)])
                demo_verbose
         else demo_verbose).
Proof.
  assert (Hi : is_int (offset demo_verbose)) by (unfold is_int; simpl; lia).
  split; [exact Hi|].
  exact (ElapsedTime_reports_and_resets 10 20 demo_stack (mkClocks 1 5) demo_verbose Hi).
Defined.

(** X11 at work: [Debug] called from line 17 of [main.go]. *)
Lemma severity_functions_name_caller_witness :
  (Debug, Ldebug) ∈ severity_functions ∧ Caller_spec ∧
  offset demo_tracing = 0 ∧ TraceCaller demo_tracing = true ∧
  Log_renders Ldebug "A debug message" demo_tracing = true ∧
  ∃ Tag more,
    tag_of demo_tracing Ldebug = Some Tag ∧
    written (final (Debug (("main.go", 17) :: []) "A debug message" demo_tracing))
    = written demo_tracing
      ++ (logger demo_tracing,
          line_with_caller Ldebug Tag "A debug message" "main.go" 17 demo_tracing)
         :: more.
Proof.
  assert (Hin : (Debug, Ldebug) ∈ severity_functions).
  { unfold severity_functions. repeat constructor. }
  split; [exact Hin|]. split; [exact demo_Caller_spec|].
  split; [reflexivity|]. split; [reflexivity|]. split; [reflexivity|].
  apply severity_functions_name_caller;
    [exact Hin|exact demo_Caller_spec|reflexivity..].
Defined.

(** X12 at work: [Error] under exit-on-error, called from line 20. *)
Lemma fatal_line_names_caller_witness :
  (Error, Lerror) ∈ severity_functions ∧ Caller_spec ∧
  offset (set_ExitOnError true demo_tracing) = 0 ∧
  TraceCaller (set_ExitOnError true demo_tracing) = true ∧
  Log_fatal Lerror (set_ExitOnError true demo_tracing) = true ∧
  Verbosity (set_ExitOnError true demo_tracing) >= Ldebug ∧
  NoEmpty (set_ExitOnError true demo_tracing) = false ∧
  ∃ Tag,
    tag_of (set_ExitOnError true demo_tracing) Lerror = Some Tag ∧
    written (final (Error (("main.go", 20) :: []) "An Error"
                      (set_ExitOnError true demo_tracing)))
    = written (set_ExitOnError true demo_tracing)
      ++ [(logger (set_ExitOnError true demo_tracing),
           line_with_caller Lerror Tag "An Error" "main.go" 20
             (set_ExitOnError true demo_tracing));
          (logger (set_ExitOnError true demo_tracing),
           line_with_caller Ldebug (tags (set_ExitOnError true demo_tracing) !!! 8%fin)
             (fmt_Sprintf (format_of (set_ExitOnError true demo_tracing) "fatal")
                [VInt Lerror])
             "main.go" 20 (set_ExitOnError true demo_tracing))].
Proof.
  assert (Hin : (Error, Lerror) ∈ severity_functions).
  { unfold severity_functions. repeat constructor. }
  assert (Hv : Verbosity (set_ExitOnError true demo_tracing) >= Ldebug).
  { vm_compute. discriminate. }
  split; [exact Hin|]. split; [exact demo_Caller_spec|].
  split; [reflexivity|]. split; [reflexivity|]. split; [reflexivity|].
  split; [exact Hv|]. split; [reflexivity|].
  apply fatal_line_names_caller;
    [exact Hin|exact demo_Caller_spec|reflexivity|reflexivity|reflexivity
    |exact Hv|reflexivity].
Defined.

(** X13 at work: [Log] called from line 17 of [main.go], in a function
    called from line 3 of [run.go]. *)
Lemma Log_names_callers_caller_witness :
  Caller_spec ∧ offset demo_tracing = 0 ∧ TraceCaller demo_tracing = true ∧
  0 ≤ Linfo ≤ 9 ∧ Log_renders Linfo "An informative message" demo_tracing = true ∧
  ∃ Tag more,
    tag_of demo_tracing Linfo = Some Tag ∧
    written (final (Log (("main.go", 17) :: ("run.go", 3) :: []) Linfo
                      "An informative message" demo_tracing))
    = written demo_tracing
      ++ (logger demo_tracing,
          line_with_caller Linfo Tag "An informative message" "run.go" 3
            demo_tracing) :: more.
Proof.
  split; [exact demo_Caller_spec|]. split; [reflexivity|]. split; [reflexivity|].
  split; [unfold Linfo; lia|]. split; [reflexivity|].
  apply Log_names_callers_caller;
    [exact demo_Caller_spec|reflexivity|reflexivity|unfold Linfo; lia|reflexivity].
Defined.

(** X14 at work: tracing the number 3 from line 17 of [main.go]. *)
Lemma TraceCall_names_itself_witness :
  Caller_spec ∧ offset demo_tracing = 0 ∧
  Log_renders Ltrace
    (fmt_Sprintf (format_of demo_tracing "trace") [VInt 3]) demo_tracing = true ∧
  written (final (TraceCall (("main.go", 17) :: []) (VInt 3) demo_tracing))
  = written demo_tracing
    ++ [(logger demo_tracing,
         line_with_caller Ltrace (tags demo_tracing !!! 9%fin)
           (fmt_Sprintf (format_of demo_tracing "trace") [VInt 3])
           slogan_go 374 (set_TraceCaller true demo_tracing))].
Proof.
  split; [exact demo_Caller_spec|]. split; [reflexivity|]. split; [reflexivity|].
  apply (TraceCall_names_itself [] (VInt 3) demo_tracing "main.go" 17
           demo_Caller_spec eq_refl eq_refl).
Defined.

(** X15 at work: [Runtime] called from line 14 of [main.go]. *)
Lemma helpers_name_caller_witness :
  Caller_spec ∧ offset demo_tracing = 0 ∧ TraceCaller demo_tracing = true ∧
  written (final (Runtime (("main.go", 14) :: []) demo_tracing))
  = written demo_tracing
    ++ (if Log_renders Ldebug
             (fmt_Sprintf (format_of demo_tracing "runtime")
                [VString runtime_GOOS; VString runtime_GOARCH; VInt runtime_NumCPU;
                 VString runtime_Compiler; VString runtime_GOROOT]) demo_tracing
        then [(logger demo_tracing,
               line_with_caller Ldebug (default "" (tag_of demo_tracing Ldebug))
                 (fmt_Sprintf (format_of demo_tracing "runtime")
                    [VString runtime_GOOS; VString runtime_GOARCH;
                     VInt runtime_NumCPU; VString runtime_Compiler;
                     VString runtime_GOROOT])
                 "main.go" 14 demo_tracing)]
        else []).
Proof.
  split; [exact demo_Caller_spec|]. split; [reflexivity|]. split; [reflexivity|].
  destruct (helpers_name_caller 0 0 [] (mkClocks 0 0) demo_tracing "main.go" 14
              demo_Caller_spec eq_refl eq_refl) as (Hruntime & _ & _).
  exact Hruntime.
Defined.

(** X16 at work: the tag of an error on a terminal, and off a terminal with
    force-colorize. *)
Lemma colorize_applies_witness :
  (isTerminal (initial true) = true ∨ ForceColorize (initial true) = true) ∧
  Colorize (initial true) = true ∧ part_of (initial true) "tag" = true ∧
  color_of (initial true) Lerror ∈ color_names ∧
  colorize "tag" Lerror "error    " (initial true)
  = color_fn (color_of (initial true) Lerror) "error    " ∧
  colorize "tag" Lerror "error    " (set_ForceColorize true (initial false))
  = color_fn (color_of (set_ForceColorize true (initial false)) Lerror) "error    ".
Proof.
  assert (Hname : color_of (initial true) Lerror ∈ color_names).
  { apply (bool_decide_eq_true_1 (_ ∈ _)). reflexivity. }
  split; [by left|]. split; [reflexivity|]. split; [reflexivity|].
  split; [exact Hname|]. split.
  - apply colorize_applies; [by left|reflexivity|reflexivity|exact Hname].
  - apply colorize_applies; [by right|reflexivity|reflexivity|exact Hname].
Defined.

(** X17 at work: standard error, found to be a terminal, set as output
    again. *)
Lemma SetOutput_turns_colors_off_witness :
  ForceColorize (initial true) = false ∧
  colorize "tag" Lerror "error    " (initial true) = "<LightRed>error    </>" ∧
  colorize "tag" Lerror "error    " (final (SetOutput os_Stderr (initial true)))
  = "error    ".
Proof.
  split; [reflexivity|]. split; [reflexivity|].
  by apply SetOutput_turns_colors_off.
Defined.

(** X19 at work. *)
Lemma SetPrefix_round_trip_witness :
  1 ≤ Lerror ≤ 9 ∧
  tag_of (final (SetPrefix "===> " (initial true))) 0 = Some "===> " ∧
  tag_of (final (SetPrefix "===> " (initial true))) Lerror
  = tag_of (initial true) Lerror.
Proof.
  assert (Hl : 1 ≤ Lerror ≤ 9) by (unfold Lerror; lia).
  split; [exact Hl|].
  destruct (SetPrefix_round_trip "===> " "" (initial true)) as (_ & Hzero & _ & Hrest).
  split; [exact Hzero|exact (Hrest Lerror Hl)].
Defined.

(** X20 at work: the same message from two places. *)
Lemma Log_ignores_call_site_witness :
  TraceCaller demo_verbose = false ∧
  status_of (Log [("run.go", 3)] Lerror "An Error"
               (set_offset 2 (set_CallerBase false demo_verbose)))
  = status_of (Log demo_stack Lerror "An Error" demo_verbose) ∧
  written (final (Log [("run.go", 3)] Lerror "An Error"
                    (set_offset 2 (set_CallerBase false demo_verbose))))
  = written (final (Log demo_stack Lerror "An Error" demo_verbose)).
Proof. split; [reflexivity|]. by apply Log_ignores_call_site. Defined.

(** X21 at work: off a terminal, with another color table and every part
    switched on. *)
Lemma Log_ignores_colors_off_terminal_witness :
  isTerminal demo_no_empty = false ∧ ForceColorize demo_no_empty = false ∧
  status_of (Log demo_stack Lerror "An Error"
               (set_colors (<[Lerror:="Pink"]> default_colors)
                  (set_parts (<["log":=true]> default_parts)
                     (set_Colorize false demo_no_empty))))
  = status_of (Log demo_stack Lerror "An Error" demo_no_empty) ∧
  written (final (Log demo_stack Lerror "An Error"
                    (set_colors (<[Lerror:="Pink"]> default_colors)
                       (set_parts (<["log":=true]> default_parts)
                          (set_Colorize false demo_no_empty)))))
  = written (final (Log demo_stack Lerror "An Error" demo_no_empty)).
Proof.
  split; [reflexivity|]. split; [reflexivity|].
  by apply Log_ignores_colors_off_terminal.
Defined.

(** X22 at work: from the default verbosity to 9. *)
Lemma Log_verbosity_monotone_witness :
  Verbosity demo_exit_on_error ≤ 9 ∧
  ∀ ev, ev ∈ written (final (Log demo_stack Lerror "An Error" demo_exit_on_error)) →
        ev ∈ written (final (Log demo_stack Lerror "An Error"
                               (set_Verbosity 9 demo_exit_on_error))).
Proof.
  assert (HV : Verbosity demo_exit_on_error ≤ 9) by (vm_compute; discriminate).
  split; [exact HV|]. by apply Log_verbosity_monotone.
Defined.

(** X23 at work: at the largest [int]. *)
Lemma offset_round_trip_witness :
  is_int (offset (set_offset (2 ^ 63 - 1) (initial true))) ∧
  offset (final (incr_offset (set_offset (2 ^ 63 - 1) (initial true)))) = - 2 ^ 63 ∧
  decr_offset (final (incr_offset (set_offset (2 ^ 63 - 1) (initial true))))
  = set_offset (2 ^ 63 - 1) (initial true).
Proof.
  assert (Hi : is_int (offset (set_offset (2 ^ 63 - 1) (initial true)))).
  { unfold is_int. simpl. lia. }
  split; [exact Hi|]. split; [reflexivity|]. by apply offset_round_trip.
Defined.

(** X24 at work: the README's [SetFlags(log.Lshortfile)], then [Debug] from
    line 17 of [/home/eric/main.go]. *)
Lemma SetFlags_then_log_names_caller_witness :
  is_int Lshortfile ∧
  (Z.land Lshortfile Lshortfile = Lshortfile
   ∨ Z.land Lshortfile Llongfile = Llongfile) ∧
  (Debug, Ldebug) ∈ severity_functions ∧ Caller_spec ∧
  offset demo_verbose = 0 ∧
  Log_renders Ldebug "A debug message" demo_verbose = true ∧
  ∃ Tag more,
    tag_of demo_verbose Ldebug = Some Tag ∧
    written (final (Debug (("/home/eric/main.go", 17) :: []) "A debug message"
                      (final (SetFlags Lshortfile demo_verbose))))
    = written demo_verbose
      ++ (logger (final (SetFlags Lshortfile demo_verbose)),
          fmt_Sprintf (format_of demo_verbose "caller")
            [VString (colorize "tag" Ldebug Tag demo_verbose);
             VString (colorize "log" Ldebug "A debug message" demo_verbose);
             VString
               (colorize "caller" 10
                  (fmt_Sprintf (format_of demo_verbose "where")
                     [VString (if bool_decide (Z.land Lshortfile Llongfile = Llongfile)
                               then "/home/eric/main.go"
                               else path_Base "/home/eric/main.go");
                      VInt 17]) demo_verbose)]) :: more.
Proof.
  assert (Hi : is_int Lshortfile) by (unfold is_int, Lshortfile; lia).
  assert (Hin : (Debug, Ldebug) ∈ severity_functions).
  { unfold severity_functions. repeat constructor. }
  split; [exact Hi|]. split; [by left|]. split; [exact Hin|].
  split; [exact demo_Caller_spec|]. split; [reflexivity|]. split; [reflexivity|].
  apply SetFlags_then_log_names_caller;
    [exact Hi|by left|exact Hin|exact demo_Caller_spec|reflexivity|reflexivity].
Defined.

(** The README's output with the short file flag. *)
Example README_shortfile :
  snd <$> written (final (Debug (("/home/eric/main.go", 17) :: []) "A debug message"
                            (final (SetFlags Lshortfile
                                      (set_Verbosity 9 (initial false)))))) 
  = [ "   debug     main.go:17" +:+ TAB +:+ " A debug message" ].
Proof. vm_compute. reflexivity. Qed.

(** What the lost mode does to a program: after [SetFlags(Lshortfile)] the
    lines carry their caller, until a [TraceCall] (silent here, under
    verbosity 8) switches that off for the lines that follow. *)
Example TraceCall_drops_caller_of_later_lines :
  snd <$> written (final ((SetFlags Lshortfile ;;
                           Debug [("main.go", 17)] "first" ;;
                           TraceCall [("main.go", 18)] (VInt 3) ;;
                           Debug [("main.go", 19)] "second")
                            (set_Verbosity 8 (initial false))))
  = [ "   debug     main.go:17" +:+ TAB +:+ " first";
      "   debug     second" ].
Proof. vm_compute. reflexivity. Qed.

End more_runs.
